(** * django-jbank / xmlsec1-examples: [decrypt3.c] and [sign3-sha256.c]

    Both programs are straight-line glue around libxml2 / xmlsec1.  The
    embedding below keeps the control flow of the two C files (early
    [return]s of [main], the [goto done] of [decrypt_file] and [sign_file])
    and records every interaction with the outside world -- a library call
    together with the value it returned, a message on standard error, an
    output on standard output -- in a chronological trace.  The behaviour of
    the external library is a parameter: a record [library] giving, for each
    entry point the programs call, the value it returns. *)

From Stdlib Require Import ZArith List String Ascii Bool Lia.
Import ListNotations.
Local Open Scope Z_scope.

(** ** Data model *)

(** Pointers handed out by the library.  A C pointer that may be [NULL] is
    an [option]; [None] is [NULL]. *)
Variant xmlDocPtr := Doc (addr : nat).
Variant xmlNodePtr := Node (addr : nat).
Variant xmlSecKeyPtr := Key (addr : nat).
Variant xmlSecKeysMngrPtr := Mngr (addr : nat).
Variant xmlSecEncCtxPtr := EncCtx (addr : nat).
Variant xmlSecDSigCtxPtr := DSigCtx (addr : nat).

(** [xmlSecBuffer], as seen through [xmlSecBufferGetData] (the data pointer,
    possibly [NULL]) and [xmlSecBufferGetSize]. *)
Record xmlSecBuffer := {
  xmlSecBufferGetData : option (list Byte.byte);
  xmlSecBufferGetSize : nat
}.

(** What [xmlSecEncCtxDecrypt] leaves behind: its return value and the two
    fields of the context that [decrypt_file] reads afterwards. *)
Record decrypt_outcome := {
  decrypt_ret : Z;
  result : option xmlSecBuffer;       (* encCtx->result *)
  resultReplaced : Z                  (* encCtx->resultReplaced *)
}.

(** Compile-time switches of the two files. *)
Record build := {
  XMLSEC_NO_XSLT : bool;
  XMLSEC_CRYPTO_DYNAMIC_LOADING : bool
}.

(** The external library: the value each entry point returns. *)
Record library := {
  xmlSecInit : Z;
  xmlSecCheckVersion : Z;
  xmlSecCryptoDLLoadLibrary : Z;
  xmlSecCryptoAppInit : Z;
  xmlSecCryptoInit : Z;
  xmlSecKeysMngrCreate : option xmlSecKeysMngrPtr;
  xmlSecCryptoAppDefaultKeysMngrInit : xmlSecKeysMngrPtr -> Z;
  xmlSecCryptoAppKeyLoad : string -> option xmlSecKeyPtr;
  xmlSecCryptoAppDefaultKeysMngrAdoptKey : xmlSecKeysMngrPtr -> xmlSecKeyPtr -> Z;
  xmlParseFile : string -> option xmlDocPtr;
  xmlDocGetRootElement : xmlDocPtr -> option xmlNodePtr;
  xmlSecFindNode : option xmlNodePtr -> string -> string -> option xmlNodePtr;
  xmlSecEncCtxCreate : option xmlSecKeysMngrPtr -> option xmlSecEncCtxPtr;
  xmlSecEncCtxDecrypt : xmlSecEncCtxPtr -> option xmlNodePtr -> decrypt_outcome;
  xmlSecDSigCtxCreate : option xmlSecKeysMngrPtr -> option xmlSecDSigCtxPtr;
  xmlSecCryptoAppKeyCertLoad : option xmlSecKeyPtr -> string -> Z;
  xmlSecKeySetName : option xmlSecKeyPtr -> string -> Z;
  xmlSecDSigCtxSign : xmlSecDSigCtxPtr -> option xmlNodePtr -> Z
}.

(** Everything a run does that is visible outside the program. *)
Inductive event :=
| fprintf_stderr (msg : string)
| xmlDocDump_stdout (doc : xmlDocPtr)
| fwrite_stdout (data : list Byte.byte) (size : nat)
| Ev_xmlInitParser
| Ev_LIBXML_TEST_VERSION
| Ev_set_xmlLoadExtDtdDefaultValue (v : Z)
| Ev_xmlSubstituteEntitiesDefault (v : Z)
| Ev_set_xmlIndentTreeOutput (v : Z)
| Ev_xmlSecInit (r : Z)
| Ev_xmlSecCheckVersion (r : Z)
| Ev_xmlSecCryptoDLLoadLibrary (r : Z)
| Ev_xmlSecCryptoAppInit (r : Z)
| Ev_xmlSecCryptoInit (r : Z)
| Ev_xmlSecKeysMngrCreate (r : option xmlSecKeysMngrPtr)
| Ev_xmlSecCryptoAppDefaultKeysMngrInit (m : xmlSecKeysMngrPtr) (r : Z)
| Ev_xmlSecCryptoAppKeyLoad (file : string) (r : option xmlSecKeyPtr)
| Ev_xmlSecCryptoAppDefaultKeysMngrAdoptKey
    (m : xmlSecKeysMngrPtr) (k : xmlSecKeyPtr) (r : Z)
| Ev_xmlSecKeyDestroy (k : xmlSecKeyPtr)
| Ev_xmlSecKeysMngrDestroy (m : xmlSecKeysMngrPtr)
| Ev_xmlParseFile (file : string) (r : option xmlDocPtr)
| Ev_xmlDocGetRootElement (doc : xmlDocPtr) (r : option xmlNodePtr)
| Ev_xmlSecFindNode (parent : option xmlNodePtr) (name ns : string)
    (r : option xmlNodePtr)
| Ev_xmlSecEncCtxCreate (m : option xmlSecKeysMngrPtr) (r : option xmlSecEncCtxPtr)
| Ev_xmlSecEncCtxDecrypt (ctx : xmlSecEncCtxPtr) (node : option xmlNodePtr)
    (out : decrypt_outcome)
| Ev_xmlSecEncCtxDestroy (ctx : xmlSecEncCtxPtr)
| Ev_xmlFreeDoc (doc : xmlDocPtr)
| Ev_xmlSecDSigCtxCreate (m : option xmlSecKeysMngrPtr) (r : option xmlSecDSigCtxPtr)
| Ev_xmlSecCryptoAppKeyCertLoad (k : option xmlSecKeyPtr) (file : string) (r : Z)
| Ev_xmlSecKeySetName (k : option xmlSecKeyPtr) (name : string) (r : Z)
| Ev_xmlSecDSigCtxSign (ctx : xmlSecDSigCtxPtr) (node : option xmlNodePtr) (r : Z)
| Ev_xmlSecDSigCtxDestroy (ctx : xmlSecDSigCtxPtr)
| Ev_xmlSecCryptoShutdown
| Ev_xmlSecCryptoAppShutdown
| Ev_xmlSecShutdown
| Ev_xsltCleanupGlobals
| Ev_xmlCleanupParser.

Definition trace := list event.

(** ** A writer monad over the trace *)

Definition io (A : Type) : Type := (A * trace)%type.

Definition ret {A : Type} (a : A) : io A := (a, []).

Definition bind {A B : Type} (m : io A) (k : A -> io B) : io B :=
  let (a, t1) := m in
  let (b, t2) := k a in
  (b, t1 ++ t2).

Definition emit (e : event) : io unit := (tt, [e]).

(** A library call: log it with the value it returned, and return it. *)
Definition call {A : Type} (ev : A -> event) (r : A) : io A := (r, [ev r]).

Declare Scope io_scope.
Delimit Scope io_scope with io.
Notation "x <- m ;; k" := (bind m (fun x => k))
  (at level 100, m at next level, right associativity) : io_scope.
Notation "m ;; k" := (bind m (fun _ => k))
  (at level 100, right associativity) : io_scope.
Local Open Scope io_scope.

(** ** Constants of the headers *)

(* libxml/parser.h *)
Definition XML_DETECT_IDS : Z := 2.
Definition XML_COMPLETE_ATTRS : Z := 4.
(* xmlsec/strings.h *)
Definition xmlSecNodeEncryptedData : string := "EncryptedData"%string.
Definition xmlSecEncNs : string := "http://www.w3.org/2001/04/xmlenc#"%string.
Definition xmlSecNodeSignature : string := "Signature"%string.
Definition xmlSecDSigNs : string := "http://www.w3.org/2000/09/xmldsig#"%string.

(** The two characters the format strings escape. *)
Definition dquote : string :=
  String (Ascii false true false false false true false false) EmptyString.
Definition nl : string :=
  String (Ascii false true false true false false false false) EmptyString.

(** [argv[i]]; the programs only index below [argc] once the count has been
    checked, except for [argv[0]] in the usage message. *)
Definition arg (argv : list string) (i : nat) : string :=
  nth i argv "(null)"%string.

Definition argc (argv : list string) : Z := Z.of_nat (List.length argv).

(** Steps shared by the two [main]s. *)

(* Init libxml and libxslt libraries *)
Definition init_libxml (b : build) : io unit :=
  emit Ev_xmlInitParser ;;
  emit Ev_LIBXML_TEST_VERSION ;;
  emit (Ev_set_xmlLoadExtDtdDefaultValue (Z.lor XML_DETECT_IDS XML_COMPLETE_ATTRS)) ;;
  emit (Ev_xmlSubstituteEntitiesDefault 1) ;;
  if XMLSEC_NO_XSLT b then ret tt
  else emit (Ev_set_xmlIndentTreeOutput 1).

(* The shutdown calls at the end of a successful [main]. *)
Definition shutdown_libs (b : build) : io unit :=
  emit Ev_xmlSecCryptoShutdown ;;
  emit Ev_xmlSecCryptoAppShutdown ;;
  emit Ev_xmlSecShutdown ;;
  (if XMLSEC_NO_XSLT b then ret tt else emit Ev_xsltCleanupGlobals) ;;
  emit Ev_xmlCleanupParser.

(** [main] of both files from [xmlInitParser] to [xmlSecCryptoInit]; the
    text is the same in the two files.  [inl status] is an early [return]. *)
Definition init_libs (b : build) (L : library) : io (Z + unit) :=
  init_libxml b ;;
  r <- call Ev_xmlSecInit (xmlSecInit L) ;;
  if r <? 0 then
    emit (fprintf_stderr ("Error: xmlsec initialization failed." ++ nl)%string) ;;
    ret (inl (-1))
  else
  r <- call Ev_xmlSecCheckVersion (xmlSecCheckVersion L) ;;
  if negb (r =? 1) then
    emit (fprintf_stderr
            ("Error: loaded xmlsec library version is not compatible." ++ nl)%string) ;;
    ret (inl (-1))
  else
  dl <- (if XMLSEC_CRYPTO_DYNAMIC_LOADING b then
           r <- call Ev_xmlSecCryptoDLLoadLibrary (xmlSecCryptoDLLoadLibrary L) ;;
           ret (r <? 0)
         else ret false) ;;
  if (dl : bool) then
    emit (fprintf_stderr
            ("Error: unable to load default xmlsec-crypto library. Make sure" ++ nl ++
             "that you have it installed and check shared libraries path" ++ nl ++
             "(LD_LIBRARY_PATH) envornment variable." ++ nl)%string) ;;
    ret (inl (-1))
  else
  r <- call Ev_xmlSecCryptoAppInit (xmlSecCryptoAppInit L) ;;
  if r <? 0 then
    emit (fprintf_stderr ("Error: crypto initialization failed." ++ nl)%string) ;;
    ret (inl (-1))
  else
  r <- call Ev_xmlSecCryptoInit (xmlSecCryptoInit L) ;;
  if r <? 0 then
    emit (fprintf_stderr ("Error: xmlsec-crypto initialization failed." ++ nl)%string) ;;
    ret (inl (-1))
  else ret (inr tt).

(** ** decrypt3.c *)

Module Decrypt3.

(** The locals of [decrypt_file] that are live at the label [done]. *)
Record locals := {
  doc : option xmlDocPtr;
  encCtx : option xmlSecEncCtxPtr;
  res : Z
}.

Definition msg_parse (enc_file : string) : string :=
  ("Error: unable to parse file " ++ dquote ++ enc_file ++ dquote ++ nl)%string.
Definition msg_start_node (enc_file : string) : string :=
  ("Error: start node not found in " ++ dquote ++ enc_file ++ dquote ++ nl)%string.
Definition msg_enc_ctx : string :=
  ("Error: failed to create encryption context" ++ nl)%string.
Definition msg_decrypt : string :=
  ("Error: decryption failed" ++ nl)%string.
Definition msg_key_load (key_file : string) : string :=
  ("Error: failed to load rsa key from file " ++ dquote ++ key_file ++ dquote ++ nl)%string.

(** [decrypt_file] from its first statement to the label [done]: the value
    returned is the state of the locals on arrival there.  [assert(mngr)] and
    [assert(enc_file)] hold by typing. *)
Definition decrypt_file_body (L : library) (mngr : xmlSecKeysMngrPtr)
    (enc_file : string) : io locals :=
  let parse_error (doc : option xmlDocPtr) : io locals :=
    emit (fprintf_stderr (msg_parse enc_file)) ;;
    ret {| doc := doc; encCtx := None; res := -1 |} in
  (* load template *)
  doc <- call (Ev_xmlParseFile enc_file) (xmlParseFile L enc_file) ;;
  match doc with
  | None => parse_error doc                   (* doc == NULL *)
  | Some d =>
  r <- call (Ev_xmlDocGetRootElement d) (xmlDocGetRootElement L d) ;;
  match r with
  | None => parse_error doc                   (* || xmlDocGetRootElement(doc) == NULL *)
  | Some _ =>
  (* find start node *)
  root <- call (Ev_xmlDocGetRootElement d) (xmlDocGetRootElement L d) ;;
  node <- call (Ev_xmlSecFindNode root xmlSecNodeEncryptedData xmlSecEncNs)
               (xmlSecFindNode L root xmlSecNodeEncryptedData xmlSecEncNs) ;;
  match node with
  | None =>
      emit (fprintf_stderr (msg_start_node enc_file)) ;;
      ret {| doc := doc; encCtx := None; res := -1 |}
  | Some _ =>
  (* create encryption context *)
  encCtx <- call (Ev_xmlSecEncCtxCreate (Some mngr)) (xmlSecEncCtxCreate L (Some mngr)) ;;
  match encCtx with
  | None =>
      emit (fprintf_stderr msg_enc_ctx) ;;
      ret {| doc := doc; encCtx := None; res := -1 |}
  | Some ctx =>
  (* decrypt the data *)
  out <- call (Ev_xmlSecEncCtxDecrypt ctx node) (xmlSecEncCtxDecrypt L ctx node) ;;
  match (if decrypt_ret out <? 0 then None else result out) with
  | None =>                    (* decrypt < 0 || encCtx->result == NULL *)
      emit (fprintf_stderr msg_decrypt) ;;
      ret {| doc := doc; encCtx := encCtx; res := -1 |}
  | Some buf =>
  (* print decrypted data to stdout *)
  (if negb (resultReplaced out =? 0) then
     emit (xmlDocDump_stdout d)
   else
     match xmlSecBufferGetData buf with
     | None => ret tt
     | Some data => emit (fwrite_stdout data (xmlSecBufferGetSize buf))
     end) ;;
  (* success *)
  ret {| doc := doc; encCtx := encCtx; res := 0 |}
  end end end end end.

(** The code after [done:].  The body of the first [if] is commented out in
    the source: nothing is called on the encryption context. *)
Definition decrypt_file_done (l : locals) : io Z :=
  (match encCtx l with
   | Some _ => ret tt      (* //xmlSecEncCtxDestroy(encCtx); *)
   | None => ret tt
   end) ;;
  (match doc l with
   | Some d => emit (Ev_xmlFreeDoc d)
   | None => ret tt
   end) ;;
  ret (res l).

Definition decrypt_file (L : library) (mngr : xmlSecKeysMngrPtr)
    (enc_file : string) : io Z :=
  l <- decrypt_file_body L mngr enc_file ;;
  decrypt_file_done l.

Definition create_keys_mngr (L : library) (key_file : string)
    : io (option xmlSecKeysMngrPtr) :=
  (* create keys manager *)
  mngr <- call Ev_xmlSecKeysMngrCreate (xmlSecKeysMngrCreate L) ;;
  match mngr with
  | None =>
      emit (fprintf_stderr ("Error: failed to create keys manager." ++ nl)%string) ;;
      ret None
  | Some m =>
  (* initialize it *)
  r <- call (Ev_xmlSecCryptoAppDefaultKeysMngrInit m)
            (xmlSecCryptoAppDefaultKeysMngrInit L m) ;;
  if r <? 0 then
    emit (fprintf_stderr ("Error: failed to initialize keys manager." ++ nl)%string) ;;
    emit (Ev_xmlSecKeysMngrDestroy m) ;;
    ret None
  else
  (* load RSA key *)
  key <- call (Ev_xmlSecCryptoAppKeyLoad key_file) (xmlSecCryptoAppKeyLoad L key_file) ;;
  match key with
  | None =>
      emit (fprintf_stderr (msg_key_load key_file)) ;;
      emit (Ev_xmlSecKeysMngrDestroy m) ;;
      ret None
  | Some k =>
  (* add key to keys manager *)
  r <- call (Ev_xmlSecCryptoAppDefaultKeysMngrAdoptKey m k)
            (xmlSecCryptoAppDefaultKeysMngrAdoptKey L m k) ;;
  if r <? 0 then
    emit (fprintf_stderr
            ("Error: failed to add key from " ++ dquote ++ key_file ++ dquote ++
             " to keys manager" ++ nl)%string) ;;
    emit (Ev_xmlSecKeyDestroy k) ;;
    emit (Ev_xmlSecKeysMngrDestroy m) ;;
    ret None
  else ret (Some m)
  end end.

(** [main]; [argc] is the length of [argv], and the value returned is the
    exit status.  [assert(argv)] holds by typing. *)
Definition main (b : build) (L : library) (argv : list string) : io Z :=
  if negb (argc argv =? 3) then
    emit (fprintf_stderr ("Error: wrong number of arguments." ++ nl)%string) ;;
    emit (fprintf_stderr
            ("Usage: " ++ arg argv 0 ++ " <enc-file> <key-file>" ++ nl)%string) ;;
    ret 1
  else
  i <- init_libs b L ;;
  match i with
  | inl status => ret status
  | inr _ =>
  (* create keys manager and load keys *)
  mngr <- create_keys_mngr L (arg argv 2) ;;
  match mngr with
  | None => ret (-1)
  | Some m =>
  r <- decrypt_file L m (arg argv 1) ;;
  if r <? 0 then
    emit (Ev_xmlSecKeysMngrDestroy m) ;;
    ret (-1)
  else
  (* destroy keys manager *)
  emit (Ev_xmlSecKeysMngrDestroy m) ;;
  shutdown_libs b ;;
  ret 0
  end end.

End Decrypt3.

(** ** sign3-sha256.c *)

Module Sign3.

(** The locals of [sign_file] that are live at the label [done]. *)
Record locals := {
  doc : option xmlDocPtr;
  dsigCtx : option xmlSecDSigCtxPtr;
  res : Z
}.

Definition msg_parse (xml_file : string) : string :=
  ("Error: unable to parse file " ++ dquote ++ xml_file ++ dquote ++ nl)%string.
Definition msg_start_node (xml_file : string) : string :=
  ("Error: start node not found in " ++ dquote ++ xml_file ++ dquote ++ nl)%string.
Definition msg_sig_ctx : string :=
  ("Error: failed to create signature context" ++ nl)%string.
Definition msg_key_load (key_file : string) : string :=
  ("Error: failed to load private pem key from " ++ dquote ++ key_file ++ dquote ++ nl)%string.
Definition msg_cert_load (cert_file : string) : string :=
  ("Error: failed to load pem certificate " ++ dquote ++ cert_file ++ dquote ++ nl)%string.
Definition msg_key_name (key_file : string) : string :=
  ("Error: failed to set key name for key from " ++ dquote ++ key_file ++ dquote ++ nl)%string.
Definition msg_sign : string :=
  ("Error: signature failed" ++ nl)%string.

(** [sign_file] up to the label [done], with the [#else] branch of the
    [#if 0] (the template is looked up, not built).  The three [assert]s
    hold by typing. *)
Definition sign_file_body (L : library) (xml_file key_file cert_file : string)
    : io locals :=
  let parse_error (doc : option xmlDocPtr) : io locals :=
    emit (fprintf_stderr (msg_parse xml_file)) ;;
    ret {| doc := doc; dsigCtx := None; res := -1 |} in
  (* load doc file *)
  doc <- call (Ev_xmlParseFile xml_file) (xmlParseFile L xml_file) ;;
  match doc with
  | None => parse_error doc                   (* doc == NULL *)
  | Some d =>
  r <- call (Ev_xmlDocGetRootElement d) (xmlDocGetRootElement L d) ;;
  match r with
  | None => parse_error doc                   (* || xmlDocGetRootElement(doc) == NULL *)
  | Some _ =>
  (* find start node *)
  root <- call (Ev_xmlDocGetRootElement d) (xmlDocGetRootElement L d) ;;
  signNode <- call (Ev_xmlSecFindNode root xmlSecNodeSignature xmlSecDSigNs)
                   (xmlSecFindNode L root xmlSecNodeSignature xmlSecDSigNs) ;;
  match signNode with
  | None =>
      emit (fprintf_stderr (msg_start_node xml_file)) ;;
      ret {| doc := doc; dsigCtx := None; res := -1 |}
  | Some _ =>
  (* create signature context, we don't need keys manager in this example *)
  dsigCtx <- call (Ev_xmlSecDSigCtxCreate None) (xmlSecDSigCtxCreate L None) ;;
  match dsigCtx with
  | None =>
      emit (fprintf_stderr msg_sig_ctx) ;;
      ret {| doc := doc; dsigCtx := None; res := -1 |}
  | Some ctx =>
  (* load private key, assuming that there is not password *)
  signKey <- call (Ev_xmlSecCryptoAppKeyLoad key_file) (xmlSecCryptoAppKeyLoad L key_file) ;;
  match signKey with
  | None =>
      emit (fprintf_stderr (msg_key_load key_file)) ;;
      ret {| doc := doc; dsigCtx := dsigCtx; res := -1 |}
  | Some _ =>
  (* load certificate and add to the key *)
  r <- call (Ev_xmlSecCryptoAppKeyCertLoad signKey cert_file)
            (xmlSecCryptoAppKeyCertLoad L signKey cert_file) ;;
  if r <? 0 then
    emit (fprintf_stderr (msg_cert_load cert_file)) ;;
    ret {| doc := doc; dsigCtx := dsigCtx; res := -1 |}
  else
  (* set key name to the file name, this is just an example! *)
  r <- call (Ev_xmlSecKeySetName signKey key_file) (xmlSecKeySetName L signKey key_file) ;;
  if r <? 0 then
    emit (fprintf_stderr (msg_key_name key_file)) ;;
    ret {| doc := doc; dsigCtx := dsigCtx; res := -1 |}
  else
  (* sign the template *)
  r <- call (Ev_xmlSecDSigCtxSign ctx signNode) (xmlSecDSigCtxSign L ctx signNode) ;;
  if r <? 0 then
    emit (fprintf_stderr msg_sign) ;;
    ret {| doc := doc; dsigCtx := dsigCtx; res := -1 |}
  else
  (* print signed document to stdout *)
  emit (xmlDocDump_stdout d) ;;
  (* success *)
  ret {| doc := doc; dsigCtx := dsigCtx; res := 0 |}
  end end end end end.

(** The code after [done:]. *)
Definition sign_file_done (l : locals) : io Z :=
  (match dsigCtx l with
   | Some ctx => emit (Ev_xmlSecDSigCtxDestroy ctx)
   | None => ret tt
   end) ;;
  (match doc l with
   | Some d => emit (Ev_xmlFreeDoc d)
   | None => ret tt
   end) ;;
  ret (res l).

Definition sign_file (L : library) (xml_file key_file cert_file : string) : io Z :=
  l <- sign_file_body L xml_file key_file cert_file ;;
  sign_file_done l.

(** [main]; the value returned is the exit status. *)
Definition main (b : build) (L : library) (argv : list string) : io Z :=
  if negb (argc argv =? 4) then
    emit (fprintf_stderr ("Error: wrong number of arguments." ++ nl)%string) ;;
    emit (fprintf_stderr
            ("Usage: " ++ arg argv 0 ++ " <xml-file> <key-file> <cert-file>" ++ nl)%string) ;;
    ret 1
  else
  i <- init_libs b L ;;
  match i with
  | inl status => ret status
  | inr _ =>
  r <- sign_file L (arg argv 1) (arg argv 2) (arg argv 3) ;;
  if r <? 0 then ret (-1)
  else
  shutdown_libs b ;;
  ret 0
  end.

End Sign3.

(** ** Observations on a trace *)

(** What reaches standard output, in order. *)
Definition is_stdout (e : event) : bool :=
  match e with
  | xmlDocDump_stdout _ | fwrite_stdout _ _ => true
  | _ => false
  end.

Definition stdout_of (t : trace) : trace := filter is_stdout t.

(** The messages printed on standard error, in order. *)
Fixpoint stderr_of (t : trace) : list string :=
  match t with
  | [] => []
  | fprintf_stderr msg :: t' => msg :: stderr_of t'
  | _ :: t' => stderr_of t'
  end.

(** The documents dumped on standard output, and the bytes written there by
    [fwrite]: [fwrite(data, 1, size, stdout)] sends the first [size] bytes
    found at [data]. *)
Fixpoint dumped_docs (t : trace) : list xmlDocPtr :=
  match t with
  | [] => []
  | xmlDocDump_stdout d :: t' => d :: dumped_docs t'
  | _ :: t' => dumped_docs t'
  end.

Fixpoint written_bytes (t : trace) : list Byte.byte :=
  match t with
  | [] => []
  | fwrite_stdout data size :: t' => firstn size data ++ written_bytes t'
  | _ :: t' => written_bytes t'
  end.

(** The bytes a result buffer holds: [size] bytes at [data], none when the
    buffer has no storage. *)
Definition buffer_bytes (buf : xmlSecBuffer) : list Byte.byte :=
  match xmlSecBufferGetData buf with
  | None => []
  | Some data => firstn (xmlSecBufferGetSize buf) data
  end.

(** A library step of the run that failed, by the library's own convention
    for the value returned: a negative status, a [NULL] pointer, a version
    check that does not answer 1; for the decrypt call also a context left
    without a result buffer. *)
Definition step_failed (e : event) : bool :=
  match e with
  | Ev_xmlSecInit r => r <? 0
  | Ev_xmlSecCheckVersion r => negb (r =? 1)
  | Ev_xmlSecCryptoDLLoadLibrary r => r <? 0
  | Ev_xmlSecCryptoAppInit r => r <? 0
  | Ev_xmlSecCryptoInit r => r <? 0
  | Ev_xmlSecKeysMngrCreate None => true
  | Ev_xmlSecCryptoAppDefaultKeysMngrInit _ r => r <? 0
  | Ev_xmlSecCryptoAppKeyLoad _ None => true
  | Ev_xmlSecCryptoAppDefaultKeysMngrAdoptKey _ _ r => r <? 0
  | Ev_xmlParseFile _ None => true
  | Ev_xmlDocGetRootElement _ None => true
  | Ev_xmlSecFindNode _ _ _ None => true
  | Ev_xmlSecEncCtxCreate _ None => true
  | Ev_xmlSecEncCtxDecrypt _ _ out =>
      (decrypt_ret out <? 0) || match result out with None => true | Some _ => false end
  | Ev_xmlSecDSigCtxCreate _ None => true
  | Ev_xmlSecCryptoAppKeyCertLoad _ _ r => r <? 0
  | Ev_xmlSecKeySetName _ _ r => r <? 0
  | Ev_xmlSecDSigCtxSign _ _ r => r <? 0
  | _ => false
  end.

(** The failure conditions the specification names. *)

Definition key_load_failed (e : event) : bool :=
  match e with
  | Ev_xmlSecCryptoAppKeyLoad _ None => true
  | _ => false
  end.

Definition element_missing (e : event) : bool :=
  match e with
  | Ev_xmlSecFindNode _ _ _ None => true
  | _ => false
  end.





(** Kinds of calls, for counting them in a trace. *)

Definition is_mngr_create (e : event) : bool :=
  match e with Ev_xmlSecKeysMngrCreate _ => true | _ => false end.
Definition is_key_load (e : event) : bool :=
  match e with Ev_xmlSecCryptoAppKeyLoad _ _ => true | _ => false end.
Definition is_adopt_key (e : event) : bool :=
  match e with Ev_xmlSecCryptoAppDefaultKeysMngrAdoptKey _ _ _ => true | _ => false end.
Definition is_mngr_destroy (e : event) : bool :=
  match e with Ev_xmlSecKeysMngrDestroy _ => true | _ => false end.
Definition is_parse_call (e : event) : bool :=
  match e with Ev_xmlParseFile _ _ => true | _ => false end.
Definition is_decrypt_call (e : event) : bool :=
  match e with Ev_xmlSecEncCtxDecrypt _ _ _ => true | _ => false end.
Definition is_set_name (e : event) : bool :=
  match e with Ev_xmlSecKeySetName _ _ _ => true | _ => false end.

(** Calls on a key manager, on a key, on an encryption context. *)
Definition concerns_key_manager (e : event) : bool :=
  match e with
  | Ev_xmlSecKeysMngrCreate _ | Ev_xmlSecCryptoAppDefaultKeysMngrInit _ _
  | Ev_xmlSecCryptoAppKeyLoad _ _ | Ev_xmlSecCryptoAppDefaultKeysMngrAdoptKey _ _ _
  | Ev_xmlSecKeyDestroy _ | Ev_xmlSecKeysMngrDestroy _
  | Ev_xmlSecEncCtxCreate _ _ | Ev_xmlSecEncCtxDecrypt _ _ _
  | Ev_xmlSecEncCtxDestroy _ => true
  | _ => false
  end.

(** The layers of the library stack. *)

Variant layer := libxml | xmlsec | crypto_app | xmlsec_crypto.

(** The call that initializes a layer, and the call that shuts it down.
    [xsltCleanupGlobals] has no initialization call of its own in the
    programs. *)
Definition initializes (e : event) : option layer :=
  match e with
  | Ev_xmlInitParser => Some libxml
  | Ev_xmlSecInit _ => Some xmlsec
  | Ev_xmlSecCryptoAppInit _ => Some crypto_app
  | Ev_xmlSecCryptoInit _ => Some xmlsec_crypto
  | _ => None
  end.

Definition shuts_down (e : event) : option layer :=
  match e with
  | Ev_xmlSecCryptoShutdown => Some xmlsec_crypto
  | Ev_xmlSecCryptoAppShutdown => Some crypto_app
  | Ev_xmlSecShutdown => Some xmlsec
  | Ev_xmlCleanupParser => Some libxml
  | _ => None
  end.

Definition is_teardown (e : event) : bool :=
  match e with
  | Ev_xmlSecCryptoShutdown | Ev_xmlSecCryptoAppShutdown | Ev_xmlSecShutdown
  | Ev_xsltCleanupGlobals | Ev_xmlCleanupParser => true
  | _ => false
  end.

Fixpoint pick {A : Type} (f : event -> option A) (t : trace) : list A :=
  match t with
  | [] => []
  | e :: t' =>
      match f e with
      | Some a => a :: pick f t'
      | None => pick f t'
      end
  end.

(** Resources a run acquires and releases. *)

Variant resource :=
| document (d : xmlDocPtr)
| encryption_context (c : xmlSecEncCtxPtr)
| signature_context (c : xmlSecDSigCtxPtr)
| keys_manager (m : xmlSecKeysMngrPtr).

Definition acquires (e : event) : option resource :=
  match e with
  | Ev_xmlParseFile _ (Some d) => Some (document d)
  | Ev_xmlSecEncCtxCreate _ (Some c) => Some (encryption_context c)
  | Ev_xmlSecDSigCtxCreate _ (Some c) => Some (signature_context c)
  | Ev_xmlSecKeysMngrCreate (Some m) => Some (keys_manager m)
  | _ => None
  end.

Definition releases (e : event) : option resource :=
  match e with
  | Ev_xmlFreeDoc d => Some (document d)
  | Ev_xmlSecEncCtxDestroy c => Some (encryption_context c)
  | Ev_xmlSecDSigCtxDestroy c => Some (signature_context c)
  | Ev_xmlSecKeysMngrDestroy m => Some (keys_manager m)
  | _ => None
  end.

Definition resource_eqb (r1 r2 : resource) : bool :=
  match r1, r2 with
  | document (Doc a), document (Doc a') => Nat.eqb a a'
  | encryption_context (EncCtx a), encryption_context (EncCtx a') => Nat.eqb a a'
  | signature_context (DSigCtx a), signature_context (DSigCtx a') => Nat.eqb a a'
  | keys_manager (Mngr a), keys_manager (Mngr a') => Nat.eqb a a'
  | _, _ => false
  end.

(** The resources a run acquired and never released. *)
Definition leaked (t : trace) : list resource :=
  filter (fun r => negb (existsb (resource_eqb r) (pick releases t)))
         (pick acquires t).

Definition is_encryption_context (r : resource) : bool :=
  match r with encryption_context _ => true | _ => false end.

Definition is_enc_ctx_destroy (e : event) : bool :=
  match e with Ev_xmlSecEncCtxDestroy _ => true | _ => false end.

(** ** Further observations on a trace *)

Definition is_stderr (e : event) : bool :=
  match e with fprintf_stderr _ => true | _ => false end.

(** Events that only report or clean up: a message on standard error, or
    the release of something the library handed out. *)
Definition is_message_or_release (e : event) : bool :=
  match e with
  | fprintf_stderr _ | Ev_xmlSecKeyDestroy _ | Ev_xmlSecKeysMngrDestroy _
  | Ev_xmlFreeDoc _ | Ev_xmlSecEncCtxDestroy _ | Ev_xmlSecDSigCtxDestroy _ => true
  | _ => false
  end.

(** What a run did after its first failed step. *)
Fixpoint after_first_failure (t : trace) : trace :=
  match t with
  | [] => []
  | e :: t' => if step_failed e then t' else after_first_failure t'
  end.

(** What a release gives back to the library: a resource, or a key. *)
Variant handle :=
| h_document (d : xmlDocPtr)
| h_keys_manager (m : xmlSecKeysMngrPtr)
| h_enc_ctx (c : xmlSecEncCtxPtr)
| h_dsig_ctx (c : xmlSecDSigCtxPtr)
| h_key (k : xmlSecKeyPtr).

Definition frees (e : event) : option handle :=
  match e with
  | Ev_xmlFreeDoc d => Some (h_document d)
  | Ev_xmlSecKeysMngrDestroy m => Some (h_keys_manager m)
  | Ev_xmlSecEncCtxDestroy c => Some (h_enc_ctx c)
  | Ev_xmlSecDSigCtxDestroy c => Some (h_dsig_ctx c)
  | Ev_xmlSecKeyDestroy k => Some (h_key k)
  | _ => None
  end.

Definition doc_eqb (d d' : xmlDocPtr) : bool :=
  match d, d' with Doc a, Doc a' => Nat.eqb a a' end.
Definition mngr_eqb (m m' : xmlSecKeysMngrPtr) : bool :=
  match m, m' with Mngr a, Mngr a' => Nat.eqb a a' end.
Definition enc_ctx_eqb (c c' : xmlSecEncCtxPtr) : bool :=
  match c, c' with EncCtx a, EncCtx a' => Nat.eqb a a' end.
Definition dsig_ctx_eqb (c c' : xmlSecDSigCtxPtr) : bool :=
  match c, c' with DSigCtx a, DSigCtx a' => Nat.eqb a a' end.
Definition key_eqb (k k' : xmlSecKeyPtr) : bool :=
  match k, k' with Key a, Key a' => Nat.eqb a a' end.

(** The call [e] reaches [h]: it is given [h] itself, or something that
    lives in [h].  What lives in what is taken on the safe side, by kind:
    every node lives in the document (nodes only come from
    [xmlDocGetRootElement] and [xmlSecFindNode]); every encryption context
    works on the key manager it was created for, and the manager owns the
    keys it adopted, so any call on an encryption context or on a key
    reaches the manager; a signature context owns its sign key, so any call
    on a key reaches the signature context. *)
Definition reaches (h : handle) (e : event) : bool :=
  match h, e with
  | h_document d, (xmlDocDump_stdout d' | Ev_xmlDocGetRootElement d' _ | Ev_xmlFreeDoc d') =>
      doc_eqb d d'
  | h_document _, (Ev_xmlSecFindNode (Some _) _ _ _
                  | Ev_xmlSecEncCtxDecrypt _ (Some _) _
                  | Ev_xmlSecDSigCtxSign _ (Some _) _) => true
  | h_keys_manager m, (Ev_xmlSecCryptoAppDefaultKeysMngrInit m' _
                      | Ev_xmlSecCryptoAppDefaultKeysMngrAdoptKey m' _ _
                      | Ev_xmlSecKeysMngrDestroy m'
                      | Ev_xmlSecEncCtxCreate (Some m') _
                      | Ev_xmlSecDSigCtxCreate (Some m') _) => mngr_eqb m m'
  | h_keys_manager _, (Ev_xmlSecEncCtxDecrypt _ _ _ | Ev_xmlSecEncCtxDestroy _
                      | Ev_xmlSecKeyDestroy _
                      | Ev_xmlSecCryptoAppKeyCertLoad (Some _) _ _
                      | Ev_xmlSecKeySetName (Some _) _ _) => true
  | h_enc_ctx c, (Ev_xmlSecEncCtxDecrypt c' _ _ | Ev_xmlSecEncCtxDestroy c') =>
      enc_ctx_eqb c c'
  | h_dsig_ctx c, (Ev_xmlSecDSigCtxSign c' _ _ | Ev_xmlSecDSigCtxDestroy c') =>
      dsig_ctx_eqb c c'
  | h_dsig_ctx _, (Ev_xmlSecKeyDestroy _
                  | Ev_xmlSecCryptoAppKeyCertLoad (Some _) _ _
                  | Ev_xmlSecKeySetName (Some _) _ _) => true
  | h_key k, (Ev_xmlSecCryptoAppDefaultKeysMngrAdoptKey _ k' _
             | Ev_xmlSecKeyDestroy k'
             | Ev_xmlSecCryptoAppKeyCertLoad (Some k') _ _
             | Ev_xmlSecKeySetName (Some k') _ _) => key_eqb k k'
  | _, _ => false
  end.

(** Something is reached by a call made after the run released it. *)
Fixpoint used_after_release (t : trace) : bool :=
  match t with
  | [] => false
  | e :: t' =>
      match frees e with
      | Some h => existsb (reaches h) t'
      | None => false
      end || used_after_release t'
  end.

(** The call that releases a resource. *)
Definition release_call (r : resource) : event :=
  match r with
  | document d => Ev_xmlFreeDoc d
  | encryption_context c => Ev_xmlSecEncCtxDestroy c
  | signature_context c => Ev_xmlSecDSigCtxDestroy c
  | keys_manager m => Ev_xmlSecKeysMngrDestroy m
  end.

(** Keys the manager refused to adopt, and keys the program destroyed. *)
Definition refused_key (e : event) : option xmlSecKeyPtr :=
  match e with
  | Ev_xmlSecCryptoAppDefaultKeysMngrAdoptKey _ k r => if r <? 0 then Some k else None
  | _ => None
  end.

Definition destroyed_key (e : event) : option xmlSecKeyPtr :=
  match e with
  | Ev_xmlSecKeyDestroy k => Some k
  | _ => None
  end.

(** [q]-events of a trace all come after some [p]-event ([seen]: a
    [p]-event has already occurred). *)
Fixpoint preceded_by (p q : event -> bool) (seen : bool) (t : trace) : bool :=
  match t with
  | [] => true
  | e :: t' => (if q e then seen else true) && preceded_by p q (seen || p e) t'
  end.

Definition key_adopted (e : event) : bool :=
  match e with
  | Ev_xmlSecCryptoAppDefaultKeysMngrAdoptKey _ _ r => negb (r <? 0)
  | _ => false
  end.

Definition element_found (e : event) : bool :=
  match e with
  | Ev_xmlSecFindNode _ _ _ (Some _) => true
  | _ => false
  end.

Definition key_loaded (e : event) : bool :=
  match e with
  | Ev_xmlSecCryptoAppKeyLoad _ (Some _) => true
  | _ => false
  end.

Definition is_cert_load (e : event) : bool :=
  match e with Ev_xmlSecCryptoAppKeyCertLoad _ _ _ => true | _ => false end.

(** The events that exist only in a build with XSLT, and the call that
    exists only in a build with dynamic loading. *)
Definition is_xslt_event (e : event) : bool :=
  match e with
  | Ev_set_xmlIndentTreeOutput _ | Ev_xsltCleanupGlobals => true
  | _ => false
  end.

Definition is_dl_load (e : event) : bool :=
  match e with Ev_xmlSecCryptoDLLoadLibrary _ => true | _ => false end.


Definition is_keys_mngr_call (e : event) : bool :=
  match e with
  | Ev_xmlSecKeysMngrCreate _ | Ev_xmlSecCryptoAppDefaultKeysMngrInit _ _
  | Ev_xmlSecCryptoAppDefaultKeysMngrAdoptKey _ _ _ | Ev_xmlSecKeysMngrDestroy _ => true
  | _ => false
  end.

(** ** Failure of a step, on the library's answers *)

(** The node the programs look for: the first node called [name] in the
    namespace [ns] under the root element of the document parsed from
    [file]. *)
Definition start_node (L : library) (file name ns : string) : option xmlNodePtr :=
  match xmlParseFile L file with
  | None => None
  | Some d => xmlSecFindNode L (xmlDocGetRootElement L d) name ns
  end.

(** One of the library initializations answers with a failure. *)
Definition init_fails (b : build) (L : library) : Prop :=
  xmlSecInit L < 0 \/
  xmlSecCheckVersion L <> 1 \/
  (XMLSEC_CRYPTO_DYNAMIC_LOADING b = true /\ xmlSecCryptoDLLoadLibrary L < 0) \/
  xmlSecCryptoAppInit L < 0 \/
  xmlSecCryptoInit L < 0.

(** The key manager cannot be created, initialized or given the key of
    [key_file]. *)
Definition key_manager_fails (L : library) (key_file : string) : Prop :=
  xmlSecKeysMngrCreate L = None \/
  (exists m, xmlSecKeysMngrCreate L = Some m /\
             xmlSecCryptoAppDefaultKeysMngrInit L m < 0) \/
  xmlSecCryptoAppKeyLoad L key_file = None \/
  (exists m k, xmlSecKeysMngrCreate L = Some m /\
               xmlSecCryptoAppKeyLoad L key_file = Some k /\
               xmlSecCryptoAppDefaultKeysMngrAdoptKey L m k < 0).

(** [file] does not parse, or parses to a document without root element. *)
Definition parse_fails (L : library) (file : string) : Prop :=
  xmlParseFile L file = None \/
  (exists d, xmlParseFile L file = Some d /\ xmlDocGetRootElement L d = None).

(** The decryption of [file] fails: no <EncryptedData> node, no encryption
    context for the manager, or a decrypt call that returns a negative
    value or leaves no result buffer. *)
Definition decrypt_fails (L : library) (file : string) : Prop :=
  start_node L file xmlSecNodeEncryptedData xmlSecEncNs = None \/
  (exists m, xmlSecKeysMngrCreate L = Some m /\
             xmlSecEncCtxCreate L (Some m) = None) \/
  (exists m c, xmlSecKeysMngrCreate L = Some m /\
               xmlSecEncCtxCreate L (Some m) = Some c /\
               let out := xmlSecEncCtxDecrypt L c
                            (start_node L file xmlSecNodeEncryptedData xmlSecEncNs) in
               decrypt_ret out < 0 \/ result out = None).

(** The signing of [xml_file] fails: no <Signature> node, no signature
    context, a key, certificate or key name that cannot be set up, or a
    sign call that returns a negative value. *)
Definition sign_fails (L : library) (xml_file key_file cert_file : string) : Prop :=
  start_node L xml_file xmlSecNodeSignature xmlSecDSigNs = None \/
  xmlSecDSigCtxCreate L None = None \/
  xmlSecCryptoAppKeyLoad L key_file = None \/
  xmlSecCryptoAppKeyCertLoad L (xmlSecCryptoAppKeyLoad L key_file) cert_file < 0 \/
  xmlSecKeySetName L (xmlSecCryptoAppKeyLoad L key_file) key_file < 0 \/
  (exists c, xmlSecDSigCtxCreate L None = Some c /\
             xmlSecDSigCtxSign L c
               (start_node L xml_file xmlSecNodeSignature xmlSecDSigNs) < 0).

(** ** Concrete libraries and builds, for running the programs *)

Definition plaintext : list Byte.byte := [Byte.x68; Byte.x69; Byte.x0a].

(** A library in which every call succeeds; the decrypted payload is binary
    (three bytes, in a buffer with room for more). *)
Definition lib_ok : library := {|
  xmlSecInit := 0;
  xmlSecCheckVersion := 1;
  xmlSecCryptoDLLoadLibrary := 0;
  xmlSecCryptoAppInit := 0;
  xmlSecCryptoInit := 0;
  xmlSecKeysMngrCreate := Some (Mngr 1);
  xmlSecCryptoAppDefaultKeysMngrInit := fun _ => 0;
  xmlSecCryptoAppKeyLoad := fun _ => Some (Key 2);
  xmlSecCryptoAppDefaultKeysMngrAdoptKey := fun _ _ => 0;
  xmlParseFile := fun _ => Some (Doc 3);
  xmlDocGetRootElement := fun _ => Some (Node 4);
  xmlSecFindNode := fun _ _ _ => Some (Node 5);
  xmlSecEncCtxCreate := fun _ => Some (EncCtx 6);
  xmlSecEncCtxDecrypt := fun _ _ =>
    {| decrypt_ret := 0;
       result := Some {| xmlSecBufferGetData := Some (plaintext ++ [Byte.x00]);
                         xmlSecBufferGetSize := 3 |};
       resultReplaced := 0 |};
  xmlSecDSigCtxCreate := fun _ => Some (DSigCtx 7);
  xmlSecCryptoAppKeyCertLoad := fun _ _ => 0;
  xmlSecKeySetName := fun _ _ => 0;
  xmlSecDSigCtxSign := fun _ _ => 0
|}.

(** [lib_ok] with another outcome of some calls. *)
Definition with_decrypt (L : library) (out : decrypt_outcome) : library := {|
  xmlSecInit := xmlSecInit L;
  xmlSecCheckVersion := xmlSecCheckVersion L;
  xmlSecCryptoDLLoadLibrary := xmlSecCryptoDLLoadLibrary L;
  xmlSecCryptoAppInit := xmlSecCryptoAppInit L;
  xmlSecCryptoInit := xmlSecCryptoInit L;
  xmlSecKeysMngrCreate := xmlSecKeysMngrCreate L;
  xmlSecCryptoAppDefaultKeysMngrInit := xmlSecCryptoAppDefaultKeysMngrInit L;
  xmlSecCryptoAppKeyLoad := xmlSecCryptoAppKeyLoad L;
  xmlSecCryptoAppDefaultKeysMngrAdoptKey := xmlSecCryptoAppDefaultKeysMngrAdoptKey L;
  xmlParseFile := xmlParseFile L;
  xmlDocGetRootElement := xmlDocGetRootElement L;
  xmlSecFindNode := xmlSecFindNode L;
  xmlSecEncCtxCreate := xmlSecEncCtxCreate L;
  xmlSecEncCtxDecrypt := fun _ _ => out;
  xmlSecDSigCtxCreate := xmlSecDSigCtxCreate L;
  xmlSecCryptoAppKeyCertLoad := xmlSecCryptoAppKeyCertLoad L;
  xmlSecKeySetName := xmlSecKeySetName L;
  xmlSecDSigCtxSign := xmlSecDSigCtxSign L
|}.

Definition with_key_load (L : library) (k : option xmlSecKeyPtr) : library := {|
  xmlSecInit := xmlSecInit L;
  xmlSecCheckVersion := xmlSecCheckVersion L;
  xmlSecCryptoDLLoadLibrary := xmlSecCryptoDLLoadLibrary L;
  xmlSecCryptoAppInit := xmlSecCryptoAppInit L;
  xmlSecCryptoInit := xmlSecCryptoInit L;
  xmlSecKeysMngrCreate := xmlSecKeysMngrCreate L;
  xmlSecCryptoAppDefaultKeysMngrInit := xmlSecCryptoAppDefaultKeysMngrInit L;
  xmlSecCryptoAppKeyLoad := fun _ => k;
  xmlSecCryptoAppDefaultKeysMngrAdoptKey := xmlSecCryptoAppDefaultKeysMngrAdoptKey L;
  xmlParseFile := xmlParseFile L;
  xmlDocGetRootElement := xmlDocGetRootElement L;
  xmlSecFindNode := xmlSecFindNode L;
  xmlSecEncCtxCreate := xmlSecEncCtxCreate L;
  xmlSecEncCtxDecrypt := xmlSecEncCtxDecrypt L;
  xmlSecDSigCtxCreate := xmlSecDSigCtxCreate L;
  xmlSecCryptoAppKeyCertLoad := xmlSecCryptoAppKeyCertLoad L;
  xmlSecKeySetName := xmlSecKeySetName L;
  xmlSecDSigCtxSign := xmlSecDSigCtxSign L
|}.

Definition with_parse (L : library) (d : option xmlDocPtr)
    (root : option xmlNodePtr) (found : option xmlNodePtr) : library := {|
  xmlSecInit := xmlSecInit L;
  xmlSecCheckVersion := xmlSecCheckVersion L;
  xmlSecCryptoDLLoadLibrary := xmlSecCryptoDLLoadLibrary L;
  xmlSecCryptoAppInit := xmlSecCryptoAppInit L;
  xmlSecCryptoInit := xmlSecCryptoInit L;
  xmlSecKeysMngrCreate := xmlSecKeysMngrCreate L;
  xmlSecCryptoAppDefaultKeysMngrInit := xmlSecCryptoAppDefaultKeysMngrInit L;
  xmlSecCryptoAppKeyLoad := xmlSecCryptoAppKeyLoad L;
  xmlSecCryptoAppDefaultKeysMngrAdoptKey := xmlSecCryptoAppDefaultKeysMngrAdoptKey L;
  xmlParseFile := fun _ => d;
  xmlDocGetRootElement := fun _ => root;
  xmlSecFindNode := fun _ _ _ => found;
  xmlSecEncCtxCreate := xmlSecEncCtxCreate L;
  xmlSecEncCtxDecrypt := xmlSecEncCtxDecrypt L;
  xmlSecDSigCtxCreate := xmlSecDSigCtxCreate L;
  xmlSecCryptoAppKeyCertLoad := xmlSecCryptoAppKeyCertLoad L;
  xmlSecKeySetName := xmlSecKeySetName L;
  xmlSecDSigCtxSign := xmlSecDSigCtxSign L
|}.

Definition build_default : build :=
  {| XMLSEC_NO_XSLT := false; XMLSEC_CRYPTO_DYNAMIC_LOADING := false |}.

Definition argv_decrypt : list string :=
  ["decrypt3"; "enc.xml"; "key.pem"]%string.
Definition argv_sign : list string :=
  ["sign3"; "doc.xml"; "key.pem"; "cert.pem"]%string.

Definition with_dl_load (L : library) (z : Z) : library := {|
  xmlSecInit := xmlSecInit L;
  xmlSecCheckVersion := xmlSecCheckVersion L;
  xmlSecCryptoDLLoadLibrary := z;
  xmlSecCryptoAppInit := xmlSecCryptoAppInit L;
  xmlSecCryptoInit := xmlSecCryptoInit L;
  xmlSecKeysMngrCreate := xmlSecKeysMngrCreate L;
  xmlSecCryptoAppDefaultKeysMngrInit := xmlSecCryptoAppDefaultKeysMngrInit L;
  xmlSecCryptoAppKeyLoad := xmlSecCryptoAppKeyLoad L;
  xmlSecCryptoAppDefaultKeysMngrAdoptKey := xmlSecCryptoAppDefaultKeysMngrAdoptKey L;
  xmlParseFile := xmlParseFile L;
  xmlDocGetRootElement := xmlDocGetRootElement L;
  xmlSecFindNode := xmlSecFindNode L;
  xmlSecEncCtxCreate := xmlSecEncCtxCreate L;
  xmlSecEncCtxDecrypt := xmlSecEncCtxDecrypt L;
  xmlSecDSigCtxCreate := xmlSecDSigCtxCreate L;
  xmlSecCryptoAppKeyCertLoad := xmlSecCryptoAppKeyCertLoad L;
  xmlSecKeySetName := xmlSecKeySetName L;
  xmlSecDSigCtxSign := xmlSecDSigCtxSign L
|}.

Definition with_adopt (L : library) (z : Z) : library := {|
  xmlSecInit := xmlSecInit L;
  xmlSecCheckVersion := xmlSecCheckVersion L;
  xmlSecCryptoDLLoadLibrary := xmlSecCryptoDLLoadLibrary L;
  xmlSecCryptoAppInit := xmlSecCryptoAppInit L;
  xmlSecCryptoInit := xmlSecCryptoInit L;
  xmlSecKeysMngrCreate := xmlSecKeysMngrCreate L;
  xmlSecCryptoAppDefaultKeysMngrInit := xmlSecCryptoAppDefaultKeysMngrInit L;
  xmlSecCryptoAppKeyLoad := xmlSecCryptoAppKeyLoad L;
  xmlSecCryptoAppDefaultKeysMngrAdoptKey := fun _ _ => z;
  xmlParseFile := xmlParseFile L;
  xmlDocGetRootElement := xmlDocGetRootElement L;
  xmlSecFindNode := xmlSecFindNode L;
  xmlSecEncCtxCreate := xmlSecEncCtxCreate L;
  xmlSecEncCtxDecrypt := xmlSecEncCtxDecrypt L;
  xmlSecDSigCtxCreate := xmlSecDSigCtxCreate L;
  xmlSecCryptoAppKeyCertLoad := xmlSecCryptoAppKeyCertLoad L;
  xmlSecKeySetName := xmlSecKeySetName L;
  xmlSecDSigCtxSign := xmlSecDSigCtxSign L
|}.

Definition build_minimal : build :=
  {| XMLSEC_NO_XSLT := true; XMLSEC_CRYPTO_DYNAMIC_LOADING := false |}.

Definition with_xmlSecInit (L : library) (z : Z) : library := {|
  xmlSecInit := z;
  xmlSecCheckVersion := xmlSecCheckVersion L;
  xmlSecCryptoDLLoadLibrary := xmlSecCryptoDLLoadLibrary L;
  xmlSecCryptoAppInit := xmlSecCryptoAppInit L;
  xmlSecCryptoInit := xmlSecCryptoInit L;
  xmlSecKeysMngrCreate := xmlSecKeysMngrCreate L;
  xmlSecCryptoAppDefaultKeysMngrInit := xmlSecCryptoAppDefaultKeysMngrInit L;
  xmlSecCryptoAppKeyLoad := xmlSecCryptoAppKeyLoad L;
  xmlSecCryptoAppDefaultKeysMngrAdoptKey := xmlSecCryptoAppDefaultKeysMngrAdoptKey L;
  xmlParseFile := xmlParseFile L;
  xmlDocGetRootElement := xmlDocGetRootElement L;
  xmlSecFindNode := xmlSecFindNode L;
  xmlSecEncCtxCreate := xmlSecEncCtxCreate L;
  xmlSecEncCtxDecrypt := xmlSecEncCtxDecrypt L;
  xmlSecDSigCtxCreate := xmlSecDSigCtxCreate L;
  xmlSecCryptoAppKeyCertLoad := xmlSecCryptoAppKeyCertLoad L;
  xmlSecKeySetName := xmlSecKeySetName L;
  xmlSecDSigCtxSign := xmlSecDSigCtxSign L
|}.

Definition with_sign (L : library) (z : Z) : library := {|
  xmlSecInit := xmlSecInit L;
  xmlSecCheckVersion := xmlSecCheckVersion L;
  xmlSecCryptoDLLoadLibrary := xmlSecCryptoDLLoadLibrary L;
  xmlSecCryptoAppInit := xmlSecCryptoAppInit L;
  xmlSecCryptoInit := xmlSecCryptoInit L;
  xmlSecKeysMngrCreate := xmlSecKeysMngrCreate L;
  xmlSecCryptoAppDefaultKeysMngrInit := xmlSecCryptoAppDefaultKeysMngrInit L;
  xmlSecCryptoAppKeyLoad := xmlSecCryptoAppKeyLoad L;
  xmlSecCryptoAppDefaultKeysMngrAdoptKey := xmlSecCryptoAppDefaultKeysMngrAdoptKey L;
  xmlParseFile := xmlParseFile L;
  xmlDocGetRootElement := xmlDocGetRootElement L;
  xmlSecFindNode := xmlSecFindNode L;
  xmlSecEncCtxCreate := xmlSecEncCtxCreate L;
  xmlSecEncCtxDecrypt := xmlSecEncCtxDecrypt L;
  xmlSecDSigCtxCreate := xmlSecDSigCtxCreate L;
  xmlSecCryptoAppKeyCertLoad := xmlSecCryptoAppKeyCertLoad L;
  xmlSecKeySetName := xmlSecKeySetName L;
  xmlSecDSigCtxSign := fun _ _ => z
|}.

(** ** Proof automation: run a program along every path *)

Ltac unfold_programs :=
  unfold Decrypt3.main, Decrypt3.create_keys_mngr, Decrypt3.decrypt_file,
    Decrypt3.decrypt_file_body, Decrypt3.decrypt_file_done,
    Sign3.main, Sign3.sign_file, Sign3.sign_file_body, Sign3.sign_file_done,
    init_libs, init_libxml, shutdown_libs, bind, call, emit, ret in *.

Ltac split_path :=
  match goal with
  | |- context [if ?c then _ else _] => destruct c eqn:?
  | |- context [match ?x with Some _ => _ | None => _ end] => destruct x eqn:?
  | |- context [match ?x with inl _ => _ | inr _ => _ end] => destruct x eqn:?
  | |- context [let (_, _) := ?x in _] => destruct x eqn:?
  end.

Ltac all_paths := unfold_programs; cbn; repeat (split_path; cbn in *).


(** Membership in a trace that has been computed: a disjunction of
    equations between events. *)
Ltac elim_In :=
  repeat match goal with
         | H : False |- _ => destruct H
         | H : _ \/ _ |- _ => destruct H as [H | H]; [ try discriminate H | ]
         end.

Ltac prove_In := cbn; repeat first [ left; reflexivity | right ].

(** Name the address behind every pointer in the context. *)
Ltac open_pointers :=
  repeat match goal with
         | x : xmlDocPtr |- _ => destruct x
         | x : xmlSecKeysMngrPtr |- _ => destruct x
         | x : xmlSecEncCtxPtr |- _ => destruct x
         | x : xmlSecDSigCtxPtr |- _ => destruct x
         end;
  cbn in *;
  repeat match goal with
         | Hb : context [(?a =? ?a)%nat] |- _ => rewrite Nat.eqb_refl in Hb; cbn in Hb
         end.

(** Boolean tests of the programs, as propositions. *)
Ltac zbool :=
  repeat match goal with
         | H : negb _ = true |- _ => apply negb_true_iff in H
         | H : negb _ = false |- _ => apply negb_false_iff in H
         | H : (_ =? _) = true |- _ => apply Z.eqb_eq in H
         | H : (_ =? _) = false |- _ => apply Z.eqb_neq in H
         | H : (_ <? _) = true |- _ => apply Z.ltb_lt in H
         | H : (_ <? _) = false |- _ => apply Z.ltb_ge in H
         end.

(** Evaluate the tests a path has fixed. *)
Ltac use_tests :=
  repeat match goal with
         | H : (_ <? _) = _ |- _ => rewrite H
         | H : (_ =? _) = _ |- _ => rewrite H
         | H : negb _ = _ |- _ => rewrite H
         | H : result _ = _ |- _ => rewrite H
         | H : xmlSecBufferGetData _ = _ |- _ => rewrite H
         end.

(** Run the program [r] along every path while the property to prove of it
    is kept abstract, then evaluate the property on each path. *)
Ltac paths_of r :=
  pattern r;
  lazymatch goal with
  | |- ?P ?x =>
      let Q := fresh "Q" in
      let HQ := fresh "HQ" in
      enough (forall Q : _ -> Prop, (forall y, P y -> Q y) -> Q x) as HQ
        by (apply HQ; auto);
      intros Q HQ;
      all_paths;
      apply HQ; clear HQ;
      cbn; use_tests; cbn
  end.

(** Equations between events, read as equations between their arguments. *)
Ltac event_eq :=
  repeat match goal with
         | H : _ = _ :> event |- _ => inversion H; subst; clear H
         end.

(** Settle a leaf of a run against facts on the library's answers. *)
Ltac same_answers :=
  repeat match goal with
         | H1 : ?a = Some ?x, H2 : ?a = Some ?y |- _ =>
             assert (x = y) by congruence; subst y; clear H2
         end.

Ltac rewrite_answers :=
  repeat match goal with
         | H : xmlParseFile _ _ = _ |- _ => rewrite H
         | H : xmlDocGetRootElement _ _ = _ |- _ => rewrite H
         | H : xmlSecFindNode _ _ _ _ = _ |- _ => rewrite H
         | H : xmlSecCryptoAppKeyLoad _ _ = _ |- _ => rewrite H
         end.

Ltac fail_leaf :=
  repeat eexists; repeat split; try eassumption;
  unfold start_node; rewrite_answers; cbn;
  solve [ assumption | lia | congruence
        | left; solve [ assumption | lia | congruence ]
        | right; solve [ assumption | lia | congruence ] ].

Ltac find_failure :=
  first [ solve [ fail_leaf ] | left; find_failure | right; find_failure ].

(** Refute a failure, stated on the library's answers, on a path where
    every step succeeded. *)
Ltac refute_failure H :=
  unfold init_fails, key_manager_fails, parse_fails, decrypt_fails, sign_fails,
    start_node in H;
  repeat match goal with
         | H' : _ \/ _ |- _ => destruct H' as [H' | H']
         | H' : exists _, _ |- _ => destruct H' as [? H']
         | H' : _ /\ _ |- _ => destruct H' as [? H']
         | H' : let _ := _ in _ |- _ => cbv zeta in H'
         end;
  same_answers;
  repeat match goal with
         | Ha : xmlParseFile _ _ = _, H' : context [xmlParseFile] |- _ =>
             rewrite Ha in H'
         | Ha : xmlDocGetRootElement _ _ = _, H' : context [xmlDocGetRootElement] |- _ =>
             rewrite Ha in H'
         | Ha : xmlSecFindNode _ _ _ _ = _, H' : context [xmlSecFindNode] |- _ =>
             rewrite Ha in H'
         | Ha : xmlSecCryptoAppKeyLoad _ _ = _, H' : context [xmlSecCryptoAppKeyLoad] |- _ =>
             rewrite Ha in H'
         end;
  solve [ lia | congruence | cbn in *; solve [ lia | congruence ] ].

(** * Exit status *)

(** C1.  The decrypt program exits with status 1 when the argument count is
    not 3.  With three arguments it exits with status -1 when the library
    answers any step with a failure -- an initialization, the creation,
    initialization or filling of the key manager, the parse, the search for
    the node, the creation of the context, the decrypt call -- and with
    status 0 when it answers none with a failure.  The sign program does
    the same with an argument count of 4 and the steps of signing. *)
Theorem C1_exit_status : forall (b : build) (L : library) (argv : list string),
  let decrypt_step_fails :=
    init_fails b L \/ key_manager_fails L (arg argv 2) \/
    parse_fails L (arg argv 1) \/ decrypt_fails L (arg argv 1) in
  let sign_step_fails :=
    init_fails b L \/ parse_fails L (arg argv 1) \/
    sign_fails L (arg argv 1) (arg argv 2) (arg argv 3) in
  ((argc argv <> 3 -> fst (Decrypt3.main b L argv) = 1) /\
   (argc argv = 3 -> decrypt_step_fails -> fst (Decrypt3.main b L argv) = -1) /\
   (argc argv = 3 -> ~ decrypt_step_fails -> fst (Decrypt3.main b L argv) = 0)) /\
  ((argc argv <> 4 -> fst (Sign3.main b L argv) = 1) /\
   (argc argv = 4 -> sign_step_fails -> fst (Sign3.main b L argv) = -1) /\
   (argc argv = 4 -> ~ sign_step_fails -> fst (Sign3.main b L argv) = 0)).
Proof.
  intros b L argv decrypt_step_fails sign_step_fails;
    subst decrypt_step_fails sign_step_fails.
  split.
  - paths_of (Decrypt3.main b L argv); zbool; same_answers;
      (split; [ | split ]); intros Hargc; try intros Hf;
      try reflexivity; try congruence;
      try (exfalso; apply Hf;
           unfold init_fails, key_manager_fails, parse_fails, decrypt_fails;
           find_failure);
      refute_failure Hf.
  - paths_of (Sign3.main b L argv); zbool; same_answers;
      (split; [ | split ]); intros Hargc; try intros Hf;
      try reflexivity; try congruence;
      try (exfalso; apply Hf;
           unfold init_fails, parse_fails, sign_fails;
           find_failure);
      refute_failure Hf.
Qed.

(** Runs of each program: every call succeeds; [xmlSecInit] fails; the file
    does not parse; the key does not load; the decrypt, resp. sign, call
    fails; the argument count is wrong. *)
Lemma C1_exit_status_witness :
  (fst (Decrypt3.main build_default lib_ok argv_decrypt) = 0 /\
   fst (Decrypt3.main build_default (with_xmlSecInit lib_ok (-1)) argv_decrypt) = -1 /\
   fst (Decrypt3.main build_default (with_parse lib_ok None None None) argv_decrypt) = -1 /\
   fst (Decrypt3.main build_default (with_key_load lib_ok None) argv_decrypt) = -1 /\
   fst (Decrypt3.main build_default
          (with_decrypt lib_ok {| decrypt_ret := -1; result := None; resultReplaced := 0 |})
          argv_decrypt) = -1 /\
   fst (Decrypt3.main build_default lib_ok argv_sign) = 1) /\
  (fst (Sign3.main build_default lib_ok argv_sign) = 0 /\
   fst (Sign3.main build_default (with_xmlSecInit lib_ok (-1)) argv_sign) = -1 /\
   fst (Sign3.main build_default (with_parse lib_ok None None None) argv_sign) = -1 /\
   fst (Sign3.main build_default (with_key_load lib_ok None) argv_sign) = -1 /\
   fst (Sign3.main build_default (with_sign lib_ok (-1)) argv_sign) = -1 /\
   fst (Sign3.main build_default lib_ok argv_decrypt) = 1).
Proof.
  split.
  - refine (conj _ (conj _ (conj _ (conj _ (conj _ _))))).
    + apply (C1_exit_status build_default lib_ok argv_decrypt); [ reflexivity | ].
      intros Hf; refute_failure Hf.
    + apply (C1_exit_status build_default (with_xmlSecInit lib_ok (-1)) argv_decrypt);
        [ reflexivity | ].
      left; left; cbn; lia.
    + apply (C1_exit_status build_default (with_parse lib_ok None None None)
               argv_decrypt); [ reflexivity | ].
      right; right; left; left; reflexivity.
    + apply (C1_exit_status build_default (with_key_load lib_ok None) argv_decrypt);
        [ reflexivity | ].
      right; left; right; right; left; reflexivity.
    + apply (C1_exit_status build_default
               (with_decrypt lib_ok
                  {| decrypt_ret := -1; result := None; resultReplaced := 0 |})
               argv_decrypt); [ reflexivity | ].
      right; right; right; right; right.
      exists (Mngr 1), (EncCtx 6); repeat split. left; cbn; lia.
    + apply (C1_exit_status build_default lib_ok argv_sign); discriminate.
  - refine (conj _ (conj _ (conj _ (conj _ (conj _ _))))).
    + apply (C1_exit_status build_default lib_ok argv_sign); [ reflexivity | ].
      intros Hf; refute_failure Hf.
    + apply (C1_exit_status build_default (with_xmlSecInit lib_ok (-1)) argv_sign);
        [ reflexivity | ].
      left; left; cbn; lia.
    + apply (C1_exit_status build_default (with_parse lib_ok None None None) argv_sign);
        [ reflexivity | ].
      right; left; left; reflexivity.
    + apply (C1_exit_status build_default (with_key_load lib_ok None) argv_sign);
        [ reflexivity | ].
      right; right; right; right; left; reflexivity.
    + apply (C1_exit_status build_default (with_sign lib_ok (-1)) argv_sign);
        [ reflexivity | ].
      right; right; right; right; right; right; right.
      exists (DSigCtx 7); split; [ reflexivity | cbn; lia ].
    + apply (C1_exit_status build_default lib_ok argv_decrypt); discriminate.
Defined.

(** * Output of the decrypt operation *)

(** C2.  When [decrypt_file] succeeds, the run made one decrypt call, which
    left a result buffer, and standard output received exactly one of two
    things: with the result-replaced flag set, one dump of the parsed
    document and no [fwrite]; otherwise no dump, and the bytes written are
    the bytes of the result buffer. *)
Theorem C2_decrypt_output :
  forall (L : library) (mngr : xmlSecKeysMngrPtr) (enc_file : string),
  let t := snd (Decrypt3.decrypt_file L mngr enc_file) in
  fst (Decrypt3.decrypt_file L mngr enc_file) = 0 ->
  exists d ctx node out buf,
    xmlParseFile L enc_file = Some d /\
    (forall c n o, In (Ev_xmlSecEncCtxDecrypt c n o) t -> (c, n, o) = (ctx, node, out)) /\
    In (Ev_xmlSecEncCtxDecrypt ctx node out) t /\
    result out = Some buf /\
    (resultReplaced out <> 0 ->
       stdout_of t = [xmlDocDump_stdout d] /\
       dumped_docs t = [d] /\ written_bytes t = []) /\
    (resultReplaced out = 0 ->
       dumped_docs t = [] /\ written_bytes t = buffer_bytes buf /\
       (List.length (stdout_of t) <= 1)%nat).
Proof.
  intros L mngr enc_file t; subst t.
  all_paths; intros Hres; try discriminate Hres.
  all: match goal with
       | |- context [Ev_xmlSecEncCtxDecrypt ?c ?n ?o] =>
           match goal with
           | H : result _ = Some ?b |- _ =>
               exists x, c, n, o, b
           end
       end.
  all: repeat split; auto; intros; elim_In; zbool;
       try match goal with H : _ = _ :> event |- _ => inversion H; reflexivity end;
       try solve [prove_In]; try congruence;
       try (unfold buffer_bytes;
            match goal with H : xmlSecBufferGetData _ = _ |- _ => rewrite H end;
            rewrite ?app_nil_r; reflexivity);
       try (cbn; lia).
Qed.

(** The run of [decrypt_file] in which every call succeeds and the payload
    is binary. *)
Lemma C2_decrypt_output_witness :
  fst (Decrypt3.decrypt_file lib_ok (Mngr 1) "enc.xml") = 0 /\
  exists d ctx node out buf,
    xmlParseFile lib_ok "enc.xml" = Some d /\
    (forall c n o,
        In (Ev_xmlSecEncCtxDecrypt c n o)
           (snd (Decrypt3.decrypt_file lib_ok (Mngr 1) "enc.xml")) ->
        (c, n, o) = (ctx, node, out)) /\
    In (Ev_xmlSecEncCtxDecrypt ctx node out)
       (snd (Decrypt3.decrypt_file lib_ok (Mngr 1) "enc.xml")) /\
    result out = Some buf /\
    (resultReplaced out <> 0 ->
       stdout_of (snd (Decrypt3.decrypt_file lib_ok (Mngr 1) "enc.xml"))
         = [xmlDocDump_stdout d] /\
       dumped_docs (snd (Decrypt3.decrypt_file lib_ok (Mngr 1) "enc.xml")) = [d] /\
       written_bytes (snd (Decrypt3.decrypt_file lib_ok (Mngr 1) "enc.xml")) = []) /\
    (resultReplaced out = 0 ->
       dumped_docs (snd (Decrypt3.decrypt_file lib_ok (Mngr 1) "enc.xml")) = [] /\
       written_bytes (snd (Decrypt3.decrypt_file lib_ok (Mngr 1) "enc.xml"))
         = buffer_bytes buf /\
       (List.length (stdout_of (snd (Decrypt3.decrypt_file lib_ok (Mngr 1) "enc.xml")))
          <= 1)%nat).
Proof.
  split; [reflexivity |].
  apply (C2_decrypt_output lib_ok (Mngr 1) "enc.xml"); reflexivity.
Defined.

(** * The four failure conditions of the decrypt program *)




(** * Resources *)

(** C4 does not hold for the decrypt program.  In the run where every
    library call succeeds, the encryption context is the one resource that
    is acquired and not released; no run of the decrypt program ever calls
    [xmlSecEncCtxDestroy], and whatever a run leaves unreleased is an
    encryption context (documents and key managers are always released).
    The sign program releases everything it acquires on every path. *)
Theorem C4_encryption_context_not_released :
  leaked (snd (Decrypt3.main build_default lib_ok argv_decrypt))
    = [encryption_context (EncCtx 6)] /\
  (forall (b : build) (L : library) (argv : list string),
     existsb is_enc_ctx_destroy (snd (Decrypt3.main b L argv)) = false /\
     forallb is_encryption_context (leaked (snd (Decrypt3.main b L argv))) = true /\
     leaked (snd (Sign3.main b L argv)) = []).
Proof.
  split; [ reflexivity | ].
  intros b L argv; repeat split.
  - all_paths; reflexivity.
  - unfold leaked; all_paths; open_pointers; try discriminate; reflexivity.
  - unfold leaked; all_paths; open_pointers; try discriminate; reflexivity.
Qed.

(** * Failures leave standard output untouched *)

(** C5.  When the key file does not load, or the document parsed from the
    input file has no <EncryptedData> (for the sign tool: <Signature>)
    node, the tool exits with a non-zero status and writes nothing on
    standard output.  The same holds of every run in which a key load or a
    node search is seen to fail. *)
Theorem C5_failure_without_output :
  forall (b : build) (L : library) (argv : list string),
  let quiet_failure (r : io Z) := fst r <> 0 /\ stdout_of (snd r) = [] in
  (xmlSecCryptoAppKeyLoad L (arg argv 2) = None ->
     quiet_failure (Decrypt3.main b L argv) /\ quiet_failure (Sign3.main b L argv)) /\
  (forall doc, xmlParseFile L (arg argv 1) = Some doc ->
     xmlSecFindNode L (xmlDocGetRootElement L doc) xmlSecNodeEncryptedData xmlSecEncNs
       = None ->
     quiet_failure (Decrypt3.main b L argv)) /\
  (forall doc, xmlParseFile L (arg argv 1) = Some doc ->
     xmlSecFindNode L (xmlDocGetRootElement L doc) xmlSecNodeSignature xmlSecDSigNs
       = None ->
     quiet_failure (Sign3.main b L argv)) /\
  (forall r, r = Decrypt3.main b L argv \/ r = Sign3.main b L argv ->
     existsb (fun e => key_load_failed e || element_missing e) (snd r) = true ->
     quiet_failure r).
Proof.
  intros b L argv quiet_failure; subst quiet_failure.
  split; [ | split; [ | split ] ].
  - intros Hkey; split.
    + paths_of (Decrypt3.main b L argv); zbool; split;
        solve [ reflexivity | lia | congruence ].
    + paths_of (Sign3.main b L argv); zbool; split;
        solve [ reflexivity | lia | congruence ].
  - intros doc Hdoc Hnode.
    paths_of (Decrypt3.main b L argv); zbool; same_answers; split;
      solve [ reflexivity | lia | congruence ].
  - intros doc Hdoc Hnode.
    paths_of (Sign3.main b L argv); zbool; same_answers; split;
      solve [ reflexivity | lia | congruence ].
  - intros r [-> | ->]; all_paths; intros H;
      try discriminate H; split; try reflexivity; lia.
Qed.

(** Each tool with a key that does not load, and with a document that has
    no node of the expected name. *)
Lemma C5_failure_without_output_witness :
  let no_node := with_parse lib_ok (Some (Doc 3)) (Some (Node 4)) None in
  let no_key := with_key_load lib_ok None in
  ((fst (Decrypt3.main build_default no_key argv_decrypt) <> 0 /\
    stdout_of (snd (Decrypt3.main build_default no_key argv_decrypt)) = []) /\
   (fst (Sign3.main build_default no_key argv_sign) <> 0 /\
    stdout_of (snd (Sign3.main build_default no_key argv_sign)) = [])) /\
  (fst (Decrypt3.main build_default no_node argv_decrypt) <> 0 /\
   stdout_of (snd (Decrypt3.main build_default no_node argv_decrypt)) = []) /\
  (fst (Sign3.main build_default no_node argv_sign) <> 0 /\
   stdout_of (snd (Sign3.main build_default no_node argv_sign)) = []).
Proof.
  cbv zeta.
  pose proof (C5_failure_without_output build_default (with_key_load lib_ok None)
                argv_decrypt) as (Hkd & _).
  pose proof (C5_failure_without_output build_default (with_key_load lib_ok None)
                argv_sign) as (Hks & _).
  pose proof (C5_failure_without_output build_default
                (with_parse lib_ok (Some (Doc 3)) (Some (Node 4)) None) argv_decrypt)
    as (_ & Hnd & _).
  pose proof (C5_failure_without_output build_default
                (with_parse lib_ok (Some (Doc 3)) (Some (Node 4)) None) argv_sign)
    as (_ & _ & Hns & _).
  cbv zeta in Hkd, Hks, Hnd, Hns.
  exact (conj (conj (proj1 (Hkd eq_refl)) (proj2 (Hks eq_refl)))
              (conj (Hnd (Doc 3) eq_refl eq_refl) (Hns (Doc 3) eq_refl eq_refl))).
Defined.

(** * Life of the key manager *)

(** A trace without calls on the key manager has none of the calls counted
    below. *)
Lemma quiet_filter : forall (t : trace) (p : event -> bool),
  existsb concerns_key_manager t = false ->
  (forall e, p e = true -> concerns_key_manager e = true) ->
  filter p t = [].
Proof.
  induction t as [| e t IH]; intros p Hq Hp; [ reflexivity | ].
  cbn in Hq. apply orb_false_iff in Hq. destruct Hq as [He Ht].
  cbn. destruct (p e) eqn:Hpe.
  - apply Hp in Hpe. congruence.
  - apply IH; assumption.
Qed.

Lemma quiet_no_event : forall (t : trace) (e : event),
  existsb concerns_key_manager t = false -> In e t ->
  concerns_key_manager e = true -> False.
Proof.
  intros t e Hq Hin He.
  assert (existsb concerns_key_manager t = true) as Ht
    by (apply existsb_exists; exists e; split; assumption).
  congruence.
Qed.

Lemma init_libs_quiet : forall (b : build) (L : library),
  existsb concerns_key_manager (snd (init_libs b L)) = false.
Proof.
  intros b L; all_paths; reflexivity.
Qed.

Lemma shutdown_libs_quiet : forall b : build,
  existsb concerns_key_manager (snd (shutdown_libs b)) = false.
Proof.
  intros b; all_paths; reflexivity.
Qed.

(** A run of [create_keys_mngr] that returns a manager made four calls,
    the last of which handed the loaded key to the manager. *)
Lemma create_keys_mngr_success :
  forall (L : library) (key_file : string) (m : xmlSecKeysMngrPtr),
  fst (Decrypt3.create_keys_mngr L key_file) = Some m ->
  exists k,
    snd (Decrypt3.create_keys_mngr L key_file) =
      [Ev_xmlSecKeysMngrCreate (Some m);
       Ev_xmlSecCryptoAppDefaultKeysMngrInit m (xmlSecCryptoAppDefaultKeysMngrInit L m);
       Ev_xmlSecCryptoAppKeyLoad key_file (Some k);
       Ev_xmlSecCryptoAppDefaultKeysMngrAdoptKey m k
         (xmlSecCryptoAppDefaultKeysMngrAdoptKey L m k)] /\
    0 <= xmlSecCryptoAppDefaultKeysMngrAdoptKey L m k.
Proof.
  intros L key_file m; all_paths; intros H; try discriminate H.
  inversion H; subst; zbool. eexists; split; [ reflexivity | assumption ].
Qed.

(** What [decrypt_file] does with the manager it is given. *)
Lemma decrypt_file_key_manager :
  forall (L : library) (m : xmlSecKeysMngrPtr) (enc_file : string),
  let t := snd (Decrypt3.decrypt_file L m enc_file) in
  filter is_mngr_create t = [] /\ filter is_key_load t = [] /\
  filter is_adopt_key t = [] /\ filter is_mngr_destroy t = [] /\
  (List.length (filter is_decrypt_call t) <= 1)%nat /\
  (forall m' c, In (Ev_xmlSecEncCtxCreate m' c) t -> m' = Some m).
Proof.
  intros L m enc_file t; subst t; all_paths;
    repeat split; try (cbn; lia); intros m' c H; elim_In; congruence.
Qed.

(** C6, as stated, fails: a run reaches the key-manager stage, creates the
    manager, and the key file does not load.  The manager then receives no
    key and is destroyed without [decrypt_file] having been entered (its
    first call, [xmlParseFile], never happens).  Besides, the decrypt
    program never gives the key a name: even the run in which everything
    succeeds makes no [xmlSecKeySetName] call, where the sign program makes
    one with the key file's path. *)
Lemma C6_manager_without_key_or_decrypt :
  let t := snd (Decrypt3.main build_default (with_key_load lib_ok None) argv_decrypt) in
  (filter is_mngr_create t = [Ev_xmlSecKeysMngrCreate (Some (Mngr 1))] /\
   filter is_adopt_key t = [] /\
   filter is_parse_call t = [] /\
   filter is_decrypt_call t = [] /\
   filter is_mngr_destroy t = [Ev_xmlSecKeysMngrDestroy (Mngr 1)]) /\
  (filter is_set_name (snd (Decrypt3.main build_default lib_ok argv_decrypt)) = [] /\
   filter is_set_name (snd (Sign3.main build_default lib_ok argv_sign))
     = [Ev_xmlSecKeySetName (Some (Key 2)) "key.pem" 0]).
Proof.
  repeat split.
Qed.

(** C6, amended.  In every run of the decrypt program that reaches the
    key-manager stage and in which [create_keys_mngr] returns a manager
    (the success path and the decrypt-failure path of [main]): the manager
    is created once; exactly one key is loaded, from the file named by the
    key-file argument, and exactly one key, that one, is adopted by the
    manager; the manager is passed to exactly one run of [decrypt_file], in
    which it is the manager of any encryption context created and serves at
    most one decrypt call; and it is destroyed exactly once, right after
    [decrypt_file] returns, whatever [decrypt_file] returned. *)
Theorem C6_key_manager_life :
  forall (b : build) (L : library) (argv : list string) (m : xmlSecKeysMngrPtr),
  argc argv = 3 ->
  fst (init_libs b L) = inr tt ->
  fst (Decrypt3.create_keys_mngr L (arg argv 2)) = Some m ->
  let t := snd (Decrypt3.main b L argv) in
  let d := Decrypt3.decrypt_file L m (arg argv 1) in
  t = snd (init_libs b L) ++ snd (Decrypt3.create_keys_mngr L (arg argv 2)) ++
      snd d ++ [Ev_xmlSecKeysMngrDestroy m] ++
      (if fst d <? 0 then [] else snd (shutdown_libs b)) /\
  filter is_mngr_create t = [Ev_xmlSecKeysMngrCreate (Some m)] /\
  (exists k r,
     filter is_key_load t = [Ev_xmlSecCryptoAppKeyLoad (arg argv 2) (Some k)] /\
     filter is_adopt_key t = [Ev_xmlSecCryptoAppDefaultKeysMngrAdoptKey m k r] /\
     0 <= r) /\
  (forall m' c, In (Ev_xmlSecEncCtxCreate m' c) t -> m' = Some m) /\
  (List.length (filter is_decrypt_call t) <= 1)%nat /\
  filter is_mngr_destroy t = [Ev_xmlSecKeysMngrDestroy m].
Proof.
  intros b L argv m Hargc Hinit Hmngr t d; subst t d.
  destruct (create_keys_mngr_success L (arg argv 2) m Hmngr) as (k & Hcreate & Hadopt).
  pose proof (decrypt_file_key_manager L m (arg argv 1)) as (Hd1 & Hd2 & Hd3 & Hd4 & Hd5 & Hd6).
  assert (Hquiet : forall t0, existsb concerns_key_manager t0 = false ->
            filter is_mngr_create t0 = [] /\ filter is_key_load t0 = [] /\
            filter is_adopt_key t0 = [] /\ filter is_decrypt_call t0 = [] /\
            filter is_mngr_destroy t0 = []).
  { intros t0 H0; repeat split; apply (quiet_filter _ _ H0);
      intros [] He; try discriminate He; reflexivity. }
  destruct (Hquiet _ (init_libs_quiet b L)) as (Hi1 & Hi2 & Hi3 & Hi4 & Hi5).
  destruct (Hquiet _ (shutdown_libs_quiet b)) as (Hs1 & Hs2 & Hs3 & Hs4 & Hs5).
  assert (Hmain : snd (Decrypt3.main b L argv) =
            snd (init_libs b L) ++ snd (Decrypt3.create_keys_mngr L (arg argv 2)) ++
            snd (Decrypt3.decrypt_file L m (arg argv 1)) ++
            [Ev_xmlSecKeysMngrDestroy m] ++
            (if fst (Decrypt3.decrypt_file L m (arg argv 1)) <? 0 then []
             else snd (shutdown_libs b))).
  { unfold Decrypt3.main, bind.
    rewrite Hargc; change (negb (3 =? 3)) with false; cbv iota.
    destruct (init_libs b L) as [i ti]; cbn in Hinit; subst i.
    destruct (Decrypt3.create_keys_mngr L (arg argv 2)) as [mo tm];
      cbn in Hmngr; subst mo.
    destruct (Decrypt3.decrypt_file L m (arg argv 1)) as [r td].
    destruct (shutdown_libs b) as [u ts].
    cbn. destruct (r <? 0); cbn; rewrite ?app_nil_r; reflexivity. }
  split; [ exact Hmain | ].
  rewrite Hmain, Hcreate.
  assert (Hsd : forall p : event -> bool,
            filter p (snd (shutdown_libs b)) = [] ->
            filter p (if fst (Decrypt3.decrypt_file L m (arg argv 1)) <? 0 then []
                      else snd (shutdown_libs b)) = []).
  { intros p Hp; destruct (_ <? 0); [ reflexivity | exact Hp ]. }
  repeat rewrite filter_app.
  rewrite Hi1, Hi2, Hi3, Hi4, Hi5, Hd1, Hd2, Hd3, Hd4.
  rewrite (Hsd _ Hs1), (Hsd _ Hs2), (Hsd _ Hs3), (Hsd _ Hs4), (Hsd _ Hs5).
  cbn. rewrite !app_nil_r.
  split; [ reflexivity | ].
  split; [ exists k, (xmlSecCryptoAppDefaultKeysMngrAdoptKey L m k);
           repeat split; assumption | ].
  split; [ | split; [ exact Hd5 | reflexivity ] ].
  intros m' c Hin.
  apply in_app_or in Hin; destruct Hin as [Hin | Hin].
  - exfalso. apply (quiet_no_event _ _ (init_libs_quiet b L) Hin). reflexivity.
  - destruct Hin as [Hin | [Hin | [Hin | [Hin | Hin]]]]; try discriminate Hin.
    apply in_app_or in Hin; destruct Hin as [Hin | [Hin | Hin]];
      [ exact (Hd6 m' c Hin) | discriminate Hin | ].
    exfalso. destruct (_ <? 0); [ exact Hin | ].
    apply (quiet_no_event _ _ (shutdown_libs_quiet b) Hin). reflexivity.
Qed.

(** The run of the decrypt program in which every call succeeds. *)
Lemma C6_key_manager_life_witness :
  let t := snd (Decrypt3.main build_default lib_ok argv_decrypt) in
  argc argv_decrypt = 3 /\
  fst (init_libs build_default lib_ok) = inr tt /\
  fst (Decrypt3.create_keys_mngr lib_ok (arg argv_decrypt 2)) = Some (Mngr 1) /\
  filter is_mngr_create t = [Ev_xmlSecKeysMngrCreate (Some (Mngr 1))] /\
  filter is_mngr_destroy t = [Ev_xmlSecKeysMngrDestroy (Mngr 1)].
Proof.
  pose proof (C6_key_manager_life build_default lib_ok argv_decrypt (Mngr 1)
                eq_refl eq_refl eq_refl) as H.
  cbv zeta in H. destruct H as (_ & Hcreate & _ & _ & _ & Hdestroy).
  exact (conj eq_refl (conj eq_refl (conj eq_refl (conj Hcreate Hdestroy)))).
Defined.

(** * Order of initialization and teardown *)

(** C7.  A run of either program that exits with status 0 ends with the
    teardown calls [xmlSecCryptoShutdown], [xmlSecCryptoAppShutdown],
    [xmlSecShutdown], [xsltCleanupGlobals] (unless built without XSLT),
    [xmlCleanupParser], in this order; everything before them contains no
    teardown call and holds all that was written on standard output; and the
    layers are shut down in the reverse of the order in which they were
    initialized. *)
Theorem C7_teardown_after_output_in_reverse :
  forall (b : build) (L : library) (argv : list string) (r : io Z),
  r = Decrypt3.main b L argv \/ r = Sign3.main b L argv ->
  fst r = 0 ->
  (exists before,
     snd r = before ++
             [Ev_xmlSecCryptoShutdown; Ev_xmlSecCryptoAppShutdown; Ev_xmlSecShutdown] ++
             (if XMLSEC_NO_XSLT b then [] else [Ev_xsltCleanupGlobals]) ++
             [Ev_xmlCleanupParser] /\
     existsb is_teardown before = false /\
     stdout_of before = stdout_of (snd r)) /\
  pick shuts_down (snd r) = [xmlsec_crypto; crypto_app; xmlsec; libxml] /\
  pick shuts_down (snd r) = rev (pick initializes (snd r)).
Proof.
  intros b L argv r [-> | ->]; all_paths; intros Hexit; try discriminate Hexit;
    (split; [ | split; reflexivity ]);
    match goal with
    | |- exists before, ?T = before ++ ?TD /\ _ =>
        exists (firstn (List.length T - List.length TD) T)
    end;
    cbn; repeat split; reflexivity.
Qed.

(** The successful runs of the two programs. *)
Lemma C7_teardown_after_output_in_reverse_witness :
  pick shuts_down (snd (Decrypt3.main build_default lib_ok argv_decrypt))
    = rev (pick initializes (snd (Decrypt3.main build_default lib_ok argv_decrypt))) /\
  pick shuts_down (snd (Sign3.main build_default lib_ok argv_sign))
    = rev (pick initializes (snd (Sign3.main build_default lib_ok argv_sign))).
Proof.
  split.
  - apply (C7_teardown_after_output_in_reverse build_default lib_ok argv_decrypt);
      [ left; reflexivity | reflexivity ].
  - apply (C7_teardown_after_output_in_reverse build_default lib_ok argv_sign);
      [ right; reflexivity | reflexivity ].
Defined.

(** * Decrypt results without a buffer or without data *)

(** C8.  Whenever the run of [decrypt_file] makes the decrypt call and the
    call either returns a negative value or returns normally but leaves the
    context without a result buffer, [decrypt_file] prints the message
    "Error: decryption failed" (and nothing else) on standard error, writes
    nothing on standard output and returns a negative value.  Hence a run
    that returns 0 never saw a [NULL] result. *)
Theorem C8_null_result_is_failure :
  forall (L : library) (mngr : xmlSecKeysMngrPtr) (enc_file : string)
         (ctx : xmlSecEncCtxPtr) (node : option xmlNodePtr) (out : decrypt_outcome),
  let r := Decrypt3.decrypt_file L mngr enc_file in
  In (Ev_xmlSecEncCtxDecrypt ctx node out) (snd r) ->
  (decrypt_ret out < 0 \/ (0 <= decrypt_ret out /\ result out = None) ->
     stderr_of (snd r) = ["Error: decryption failed" ++ nl]%string /\
     stdout_of (snd r) = [] /\
     fst r = -1) /\
  (fst r = 0 -> result out <> None).
Proof.
  intros L mngr enc_file ctx node out r; subst r.
  all_paths; intros Hin; elim_In;
    match goal with H : _ = _ :> event |- _ => inversion H; subst; clear H end;
    zbool; (split; [ intros [Hneg | [Hpos Hnull]] | intros Hret ]);
    try lia; try congruence; try discriminate Hret; auto.
Qed.

(** A decrypt call that returns 0 and leaves no result buffer. *)
Lemma C8_null_result_is_failure_witness :
  let L := with_decrypt lib_ok
             {| decrypt_ret := 0; result := None; resultReplaced := 0 |} in
  let r := Decrypt3.decrypt_file L (Mngr 1) "enc.xml" in
  stderr_of (snd r) = ["Error: decryption failed" ++ nl]%string /\
  stdout_of (snd r) = [] /\
  fst r = -1.
Proof.
  cbv zeta.
  apply (C8_null_result_is_failure
           (with_decrypt lib_ok {| decrypt_ret := 0; result := None; resultReplaced := 0 |})
           (Mngr 1) "enc.xml" (EncCtx 6) (Some (Node 5))
           {| decrypt_ret := 0; result := None; resultReplaced := 0 |}).
  - prove_In.
  - right; split; [ cbn; lia | reflexivity ].
Defined.

(** C9.  In a run of the decrypt program whose decrypt call succeeded with a
    result that did not replace the node: if the data pointer of the result
    buffer is [NULL], nothing at all is written on standard output and the
    exit status is still 0; otherwise standard output receives exactly one
    [fwrite] of the buffer's size in bytes from the buffer's data (and the
    exit status is 0). *)
Theorem C9_binary_result_output :
  forall (b : build) (L : library) (argv : list string)
         (ctx : xmlSecEncCtxPtr) (node : option xmlNodePtr) (out : decrypt_outcome)
         (buf : xmlSecBuffer),
  let r := Decrypt3.main b L argv in
  In (Ev_xmlSecEncCtxDecrypt ctx node out) (snd r) ->
  0 <= decrypt_ret out ->
  result out = Some buf ->
  resultReplaced out = 0 ->
  (xmlSecBufferGetData buf = None ->
     stdout_of (snd r) = [] /\ fst r = 0) /\
  (forall data, xmlSecBufferGetData buf = Some data ->
     stdout_of (snd r) = [fwrite_stdout data (xmlSecBufferGetSize buf)] /\
     written_bytes (snd r) = firstn (xmlSecBufferGetSize buf) data /\
     fst r = 0).
Proof.
  intros b L argv ctx node out buf r; subst r.
  all_paths; intros Hin Hret Hbuf Hrepl; elim_In;
    match goal with H : _ = _ :> event |- _ => inversion H; subst; clear H end;
    zbool; try lia; try congruence;
    (split; [ intros Hdata | intros data Hdata ]);
    rewrite ?app_nil_r; repeat split; congruence.
Qed.

(** A result buffer without data, and one with three bytes of data. *)
Lemma C9_binary_result_output_witness :
  let null_buf := {| xmlSecBufferGetData := None; xmlSecBufferGetSize := 0 |} in
  let L := with_decrypt lib_ok
             {| decrypt_ret := 0; result := Some null_buf; resultReplaced := 0 |} in
  (stdout_of (snd (Decrypt3.main build_default L argv_decrypt)) = [] /\
   fst (Decrypt3.main build_default L argv_decrypt) = 0) /\
  (stdout_of (snd (Decrypt3.main build_default lib_ok argv_decrypt))
     = [fwrite_stdout (plaintext ++ [Byte.x00]) 3] /\
   written_bytes (snd (Decrypt3.main build_default lib_ok argv_decrypt)) = plaintext /\
   fst (Decrypt3.main build_default lib_ok argv_decrypt) = 0).
Proof.
  cbv zeta. split.
  - apply (C9_binary_result_output build_default
             (with_decrypt lib_ok
                {| decrypt_ret := 0;
                   result := Some {| xmlSecBufferGetData := None;
                                     xmlSecBufferGetSize := 0 |};
                   resultReplaced := 0 |})
             argv_decrypt (EncCtx 6) (Some (Node 5))
             {| decrypt_ret := 0;
                result := Some {| xmlSecBufferGetData := None;
                                  xmlSecBufferGetSize := 0 |};
                resultReplaced := 0 |}
             {| xmlSecBufferGetData := None; xmlSecBufferGetSize := 0 |});
      [ prove_In | cbn; lia | reflexivity | reflexivity | reflexivity ].
  - apply (C9_binary_result_output build_default lib_ok argv_decrypt
             (EncCtx 6) (Some (Node 5))
             (xmlSecEncCtxDecrypt lib_ok (EncCtx 6) (Some (Node 5)))
             {| xmlSecBufferGetData := Some (plaintext ++ [Byte.x00]);
                xmlSecBufferGetSize := 3 |});
      [ prove_In | cbn; lia | reflexivity | reflexivity | reflexivity ].
Defined.

(** * Documents without a root element *)

(** C10.  In both programs, a file that parses to a document without a root
    element is handled as a file that does not parse: the operation prints
    the message "Error: unable to parse file" with the quoted file name (and
    nothing else) on standard error, writes nothing on standard output and
    returns -1; a file that does not parse gives the same message, output
    and return value. *)
Theorem C10_no_root_is_parse_error :
  forall (L : library) (mngr : xmlSecKeysMngrPtr) (xml_file key_file cert_file : string)
         (d : xmlDocPtr),
  xmlParseFile L xml_file = Some d ->
  xmlDocGetRootElement L d = None ->
  let observe (r : io Z) := (fst r, stderr_of (snd r), stdout_of (snd r)) in
  let message :=
    ("Error: unable to parse file " ++ dquote ++ xml_file ++ dquote ++ nl)%string in
  observe (Decrypt3.decrypt_file L mngr xml_file) = (-1, [message], []) /\
  observe (Sign3.sign_file L xml_file key_file cert_file) = (-1, [message], []) /\
  forall L' : library, xmlParseFile L' xml_file = None ->
    observe (Decrypt3.decrypt_file L' mngr xml_file)
      = observe (Decrypt3.decrypt_file L mngr xml_file) /\
    observe (Sign3.sign_file L' xml_file key_file cert_file)
      = observe (Sign3.sign_file L xml_file key_file cert_file).
Proof.
  intros L mngr xml_file key_file cert_file d Hdoc Hroot observe message.
  subst observe message.
  unfold_programs. rewrite Hdoc; cbn. rewrite Hroot; cbn.
  split; [ reflexivity | split; [ reflexivity | ] ].
  intros L' Hnone; rewrite Hnone; split; reflexivity.
Qed.

(** A document that parses and has no root element. *)
Lemma C10_no_root_is_parse_error_witness :
  let L := with_parse lib_ok (Some (Doc 3)) None None in
  let message :=
    ("Error: unable to parse file " ++ dquote ++ "doc.xml" ++ dquote ++ nl)%string in
  (fst (Decrypt3.decrypt_file L (Mngr 1) "doc.xml"),
   stderr_of (snd (Decrypt3.decrypt_file L (Mngr 1) "doc.xml")),
   stdout_of (snd (Decrypt3.decrypt_file L (Mngr 1) "doc.xml"))) = (-1, [message], []) /\
  (fst (Sign3.sign_file L "doc.xml" "key.pem" "cert.pem"),
   stderr_of (snd (Sign3.sign_file L "doc.xml" "key.pem" "cert.pem")),
   stdout_of (snd (Sign3.sign_file L "doc.xml" "key.pem" "cert.pem")))
    = (-1, [message], []).
Proof.
  cbv zeta.
  pose proof (C10_no_root_is_parse_error
                (with_parse lib_ok (Some (Doc 3)) None None) (Mngr 1)
                "doc.xml" "key.pem" "cert.pem" (Doc 3) eq_refl eq_refl) as H.
  cbv zeta in H. destruct H as (Hd & Hs & _).
  exact (conj Hd Hs).
Defined.

(** * Further properties of the two programs *)

(** X1.  [create_keys_mngr] returns [NULL] exactly when one of its library
    steps failed.  When it does, it has printed exactly one message and
    destroyed every manager it created, exactly once; when it returns a
    manager, it has printed nothing and destroyed nothing.  In both cases
    the keys it destroyed are exactly the keys the manager refused to
    adopt. *)
Theorem X1_create_keys_mngr_cleanup :
  forall (L : library) (key_file : string),
  let r := Decrypt3.create_keys_mngr L key_file in
  existsb step_failed (snd r) = match fst r with None => true | Some _ => false end /\
  pick destroyed_key (snd r) = pick refused_key (snd r) /\
  match fst r with
  | None => List.length (stderr_of (snd r)) = 1%nat /\
            pick releases (snd r) = pick acquires (snd r)
  | Some m => stderr_of (snd r) = [] /\
              pick releases (snd r) = [] /\
              pick acquires (snd r) = [keys_manager m]
  end.
Proof.
  intros L key_file r; subst r; all_paths; repeat split; try congruence;
    repeat match goal with H : (_ <? _) = _ |- _ => rewrite H end;
    reflexivity.
Qed.

(** X2.  What either program prints on standard error tells its exit
    status: nothing when it exits with 0, exactly one message when it exits
    with -1, and when it exits with 1 the run consists of the two usage
    messages and nothing else -- no library call is made before the
    argument count is checked. *)
Theorem X2_stderr_by_exit_status :
  forall (b : build) (L : library) (argv : list string) (r : io Z),
  r = Decrypt3.main b L argv \/ r = Sign3.main b L argv ->
  (fst r = 0 -> stderr_of (snd r) = []) /\
  (fst r = -1 -> List.length (stderr_of (snd r)) = 1%nat) /\
  (fst r = 1 -> List.length (snd r) = 2%nat /\ forallb is_stderr (snd r) = true).
Proof.
  intros b L argv r [-> | ->]; all_paths;
    (split; [ | split ]); intros Hexit; try discriminate Hexit;
    repeat split.
Qed.

Lemma X2_stderr_by_exit_status_witness :
  stderr_of (snd (Decrypt3.main build_default lib_ok argv_decrypt)) = [] /\
  List.length (stderr_of (snd (Sign3.main build_default (with_key_load lib_ok None)
                                 argv_sign))) = 1%nat /\
  (List.length (snd (Sign3.main build_default lib_ok argv_decrypt)) = 2%nat /\
   forallb is_stderr (snd (Sign3.main build_default lib_ok argv_decrypt)) = true).
Proof.
  pose proof (X2_stderr_by_exit_status build_default lib_ok argv_decrypt _
                (or_introl eq_refl)) as (H0 & _ & _).
  pose proof (X2_stderr_by_exit_status build_default (with_key_load lib_ok None)
                argv_sign _ (or_intror eq_refl)) as (_ & H1 & _).
  pose proof (X2_stderr_by_exit_status build_default lib_ok argv_decrypt _
                (or_intror eq_refl)) as (_ & _ & H2).
  exact (conj (H0 eq_refl) (conj (H1 eq_refl) (H2 eq_refl))).
Defined.

(** X3.  Either program shuts the libraries down exactly when it exits with
    status 0: a run that ends with any other status makes none of the
    teardown calls, whatever it had initialized. *)
Theorem X3_teardown_only_on_success :
  forall (b : build) (L : library) (argv : list string),
  existsb is_teardown (snd (Decrypt3.main b L argv))
    = (fst (Decrypt3.main b L argv) =? 0) /\
  existsb is_teardown (snd (Sign3.main b L argv))
    = (fst (Sign3.main b L argv) =? 0).
Proof.
  intros b L argv; split; all_paths; reflexivity.
Qed.

(** X4.  Either program writes on standard output only in a run that exits
    with status 0. *)
Theorem X4_stdout_only_on_success :
  forall (b : build) (L : library) (argv : list string) (r : io Z),
  r = Decrypt3.main b L argv \/ r = Sign3.main b L argv ->
  fst r <> 0 -> stdout_of (snd r) = [].
Proof.
  intros b L argv r [-> | ->]; all_paths; intros H; try reflexivity; lia.
Qed.

Lemma X4_stdout_only_on_success_witness :
  stdout_of (snd (Decrypt3.main build_default
                    (with_decrypt lib_ok
                       {| decrypt_ret := -1; result := None; resultReplaced := 0 |})
                    argv_decrypt)) = [].
Proof.
  apply (X4_stdout_only_on_success build_default
           (with_decrypt lib_ok {| decrypt_ret := -1; result := None; resultReplaced := 0 |})
           argv_decrypt _ (or_introl eq_refl)).
  discriminate.
Defined.

(** X5.  When [sign_file] returns 0, its run ends with the successful sign
    call, one dump of the signed document on standard output, the
    destruction of the signature context and the release of the document,
    in this order; the document dumped is the one parsed from [xml_file],
    and nothing else is written on standard output. *)
Theorem X5_sign_file_output :
  forall (L : library) (xml_file key_file cert_file : string),
  let t := snd (Sign3.sign_file L xml_file key_file cert_file) in
  fst (Sign3.sign_file L xml_file key_file cert_file) = 0 ->
  exists d ctx node before,
    xmlParseFile L xml_file = Some d /\
    xmlSecDSigCtxCreate L None = Some ctx /\
    0 <= xmlSecDSigCtxSign L ctx node /\
    t = before ++ [Ev_xmlSecDSigCtxSign ctx node (xmlSecDSigCtxSign L ctx node);
                   xmlDocDump_stdout d;
                   Ev_xmlSecDSigCtxDestroy ctx;
                   Ev_xmlFreeDoc d] /\
    stdout_of t = [xmlDocDump_stdout d].
Proof.
  intros L xml_file key_file cert_file t; subst t.
  all_paths; intros Hres; try discriminate Hres; zbool.
  match goal with
  | |- context [Ev_xmlSecDSigCtxSign ?c ?n _ :: xmlDocDump_stdout ?d :: _] =>
      exists d, c, n
  end.
  match goal with
  | |- exists before, _ /\ _ /\ _ /\ ?T = _ /\ _ =>
      exists (firstn (List.length T - 4) T)
  end.
  repeat split; assumption.
Qed.

Lemma X5_sign_file_output_witness :
  fst (Sign3.sign_file lib_ok "doc.xml" "key.pem" "cert.pem") = 0 /\
  stdout_of (snd (Sign3.sign_file lib_ok "doc.xml" "key.pem" "cert.pem"))
    = [xmlDocDump_stdout (Doc 3)].
Proof.
  split; [ reflexivity | ].
  destruct (X5_sign_file_output lib_ok "doc.xml" "key.pem" "cert.pem" eq_refl)
    as (d & ctx & node & before & Hd & _ & _ & _ & Hout).
  cbn in Hd. inversion Hd; subst d. exact Hout.
Defined.

(** X6.  Both programs stop at the first failure: a run has at most one
    failed library step, and after a failed step it makes no further
    library call other than releases -- all that follows is messages on
    standard error and the release of what had been acquired. *)
Theorem X6_fail_fast :
  forall (b : build) (L : library) (argv : list string),
  ((List.length (filter step_failed (snd (Decrypt3.main b L argv))) <= 1)%nat /\
   forallb is_message_or_release
     (after_first_failure (snd (Decrypt3.main b L argv))) = true) /\
  ((List.length (filter step_failed (snd (Sign3.main b L argv))) <= 1)%nat /\
   forallb is_message_or_release
     (after_first_failure (snd (Sign3.main b L argv))) = true).
Proof.
  intros b L argv; split.
  - paths_of (Decrypt3.main b L argv); split; solve [ reflexivity | lia ].
  - paths_of (Sign3.main b L argv); split; solve [ reflexivity | lia ].
Qed.

(** The observation [used_after_release] sees a node used after its
    document was freed, an encryption context used after its manager was
    destroyed, and a key used after it was destroyed. *)
Example used_after_release_sees_a_node_of_a_freed_document :
  used_after_release
    [Ev_xmlFreeDoc (Doc 1);
     Ev_xmlSecDSigCtxSign (DSigCtx 7) (Some (Node 5)) 0] = true /\
  used_after_release
    [Ev_xmlSecKeysMngrDestroy (Mngr 1);
     Ev_xmlSecEncCtxDecrypt (EncCtx 6) None
       {| decrypt_ret := 0; result := None; resultReplaced := 0 |}] = true /\
  used_after_release
    [Ev_xmlSecKeyDestroy (Key 2); Ev_xmlSecKeySetName (Some (Key 2)) "k" 0] = true.
Proof. repeat split. Qed.

(** X7.  Neither program reaches a resource after releasing it: in every
    run, once a document has been freed no later call takes it or any node;
    once a key manager has been destroyed no later call takes it, an
    encryption context or a key; once a signature context has been destroyed
    no later call takes it or a key; once a key has been destroyed no later
    call takes it.  In particular nothing is released twice. *)
Theorem X7_no_use_after_release :
  forall (b : build) (L : library) (argv : list string),
  used_after_release (snd (Decrypt3.main b L argv)) = false /\
  used_after_release (snd (Sign3.main b L argv)) = false.
Proof.
  intros b L argv; split.
  - paths_of (Decrypt3.main b L argv); reflexivity.
  - paths_of (Sign3.main b L argv); reflexivity.
Qed.

(** X8.  The XSLT switch changes nothing but two XSLT-only events: two
    builds that differ only in [XMLSEC_NO_XSLT] give, for the same library
    and arguments, the same exit status and the same run once the
    assignment to [xmlIndentTreeOutput] and the call of
    [xsltCleanupGlobals] are left out; a build without XSLT has neither. *)
Theorem X8_xslt_switch :
  forall (b b' : build) (L : library) (argv : list string),
  XMLSEC_CRYPTO_DYNAMIC_LOADING b = XMLSEC_CRYPTO_DYNAMIC_LOADING b' ->
  let plain (r : io Z) := (fst r, filter (fun e => negb (is_xslt_event e)) (snd r)) in
  plain (Decrypt3.main b L argv) = plain (Decrypt3.main b' L argv) /\
  plain (Sign3.main b L argv) = plain (Sign3.main b' L argv) /\
  (XMLSEC_NO_XSLT b = true ->
     existsb is_xslt_event (snd (Decrypt3.main b L argv)) = false /\
     existsb is_xslt_event (snd (Sign3.main b L argv)) = false).
Proof.
  intros [x dl] [x' dl'] L argv Hdl plain; subst plain; cbn in Hdl; subst dl'.
  split; [ | split ].
  - all_paths; reflexivity.
  - all_paths; reflexivity.
  - cbn; intros ->; split; all_paths; reflexivity.
Qed.

Lemma X8_xslt_switch_witness :
  fst (Decrypt3.main build_default lib_ok argv_decrypt)
    = fst (Decrypt3.main build_minimal lib_ok argv_decrypt) /\
  existsb is_xslt_event (snd (Sign3.main build_minimal lib_ok argv_sign)) = false.
Proof.
  pose proof (X8_xslt_switch build_default build_minimal lib_ok argv_decrypt eq_refl)
    as (Hd & _ & _).
  pose proof (X8_xslt_switch build_minimal build_minimal lib_ok argv_sign eq_refl)
    as (_ & _ & Hx).
  split.
  - exact (f_equal fst Hd).
  - exact (proj2 (Hx eq_refl)).
Defined.

(** X9.  In a build without dynamic loading neither program calls
    [xmlSecCryptoDLLoadLibrary], and its runs do not depend on what that
    function would return. *)
Theorem X9_no_dynamic_loading :
  forall (b : build) (L : library) (argv : list string) (z : Z),
  XMLSEC_CRYPTO_DYNAMIC_LOADING b = false ->
  (existsb is_dl_load (snd (Decrypt3.main b L argv)) = false /\
   Decrypt3.main b (with_dl_load L z) argv = Decrypt3.main b L argv) /\
  (existsb is_dl_load (snd (Sign3.main b L argv)) = false /\
   Sign3.main b (with_dl_load L z) argv = Sign3.main b L argv).
Proof.
  intros [x dl] L argv z Hdl; cbn in Hdl; subst dl.
  repeat split; all_paths; reflexivity.
Qed.

Lemma X9_no_dynamic_loading_witness :
  Decrypt3.main build_default (with_dl_load lib_ok (-1)) argv_decrypt
    = Decrypt3.main build_default lib_ok argv_decrypt.
Proof.
  apply (X9_no_dynamic_loading build_default lib_ok argv_decrypt (-1) eq_refl).
Defined.

(** X10.  The order in which the files are touched differs between the two
    programs.  The decrypt program parses the XML file only after the key
    has been loaded and adopted by the manager; the sign program loads the
    key only after the signature node has been found in the parsed
    document, and the certificate only after the key has been loaded. *)
Theorem X10_order_of_files :
  forall (b : build) (L : library) (argv : list string),
  preceded_by key_adopted is_parse_call false (snd (Decrypt3.main b L argv)) = true /\
  preceded_by element_found is_key_load false (snd (Sign3.main b L argv)) = true /\
  preceded_by key_loaded is_cert_load false (snd (Sign3.main b L argv)) = true.
Proof.
  intros b L argv; split; [ | split ].
  - paths_of (Decrypt3.main b L argv); reflexivity.
  - paths_of (Sign3.main b L argv); reflexivity.
  - paths_of (Sign3.main b L argv); reflexivity.
Qed.


(** X11.  How the sign program uses its arguments: it parses only the file
    named by its first argument, loads the key only from the second, loads
    the certificate from the third onto the key it loaded, and names that
    key by the path of the key file; the signature context is created
    without a key manager, no key-manager function is ever called, and the
    node searched for is <Signature> in the XML-DSig namespace. *)
Theorem X11_sign_arguments :
  forall (b : build) (L : library) (argv : list string),
  let t := snd (Sign3.main b L argv) in
  let key := xmlSecCryptoAppKeyLoad L (arg argv 2) in
  (forall f r, In (Ev_xmlParseFile f r) t -> f = arg argv 1) /\
  (forall f r, In (Ev_xmlSecCryptoAppKeyLoad f r) t -> f = arg argv 2) /\
  (forall k f r, In (Ev_xmlSecCryptoAppKeyCertLoad k f r) t ->
     f = arg argv 3 /\ k = key /\ key <> None) /\
  (forall k n r, In (Ev_xmlSecKeySetName k n r) t ->
     n = arg argv 2 /\ k = key /\ key <> None) /\
  (forall m r, In (Ev_xmlSecDSigCtxCreate m r) t -> m = None) /\
  (forall p n ns r, In (Ev_xmlSecFindNode p n ns r) t ->
     n = "Signature"%string /\ ns = "http://www.w3.org/2000/09/xmldsig#"%string) /\
  existsb is_keys_mngr_call t = false.
Proof.
  intros b L argv t key; subst t key.
  paths_of (Sign3.main b L argv); repeat split; intros; elim_In; event_eq;
    try reflexivity; try congruence.
Qed.

Lemma X11_sign_arguments_witness :
  xmlSecCryptoAppKeyLoad lib_ok (arg argv_sign 2) <> None.
Proof.
  pose proof (X11_sign_arguments build_default lib_ok argv_sign)
    as (_ & _ & _ & Hname & _).
  cbv zeta in Hname.
  apply (Hname (Some (Key 2)) "key.pem"%string 0). prove_In.
Defined.

(** X12.  How the decrypt program uses its arguments and what the decrypt
    call is made on: it parses only the file named by its first argument
    and loads the key only from the second; the key adopted is the key
    loaded, by the manager created; the node searched for is
    <EncryptedData> in the XML-Enc namespace, under the root element of the
    parsed document; and the decrypt call is made on the node found there,
    with a context created for that manager. *)
Theorem X12_decrypt_arguments :
  forall (b : build) (L : library) (argv : list string),
  let t := snd (Decrypt3.main b L argv) in
  (forall f r, In (Ev_xmlParseFile f r) t -> f = arg argv 1) /\
  (forall f r, In (Ev_xmlSecCryptoAppKeyLoad f r) t -> f = arg argv 2) /\
  (forall m k r, In (Ev_xmlSecCryptoAppDefaultKeysMngrAdoptKey m k r) t ->
     xmlSecKeysMngrCreate L = Some m /\
     xmlSecCryptoAppKeyLoad L (arg argv 2) = Some k) /\
  (forall p n ns r, In (Ev_xmlSecFindNode p n ns r) t ->
     n = "EncryptedData"%string /\ ns = "http://www.w3.org/2001/04/xmlenc#"%string /\
     exists d, xmlParseFile L (arg argv 1) = Some d /\
               p = xmlDocGetRootElement L d /\ p <> None) /\
  (forall c node o, In (Ev_xmlSecEncCtxDecrypt c node o) t ->
     exists m d,
       xmlSecKeysMngrCreate L = Some m /\
       xmlSecEncCtxCreate L (Some m) = Some c /\
       xmlParseFile L (arg argv 1) = Some d /\
       node = xmlSecFindNode L (xmlDocGetRootElement L d)
                xmlSecNodeEncryptedData xmlSecEncNs /\
       node <> None).
Proof.
  intros b L argv t; subst t.
  paths_of (Decrypt3.main b L argv); repeat split; intros; elim_In; event_eq;
    try reflexivity; try congruence;
    try (eexists; repeat split; try eassumption; congruence);
    try (do 2 eexists; repeat split; try eassumption; congruence).
Qed.

Lemma X12_decrypt_arguments_witness :
  exists m d,
    xmlSecKeysMngrCreate lib_ok = Some m /\
    xmlSecEncCtxCreate lib_ok (Some m) = Some (EncCtx 6) /\
    xmlParseFile lib_ok (arg argv_decrypt 1) = Some d /\
    Some (Node 5) = xmlSecFindNode lib_ok (xmlDocGetRootElement lib_ok d)
                      xmlSecNodeEncryptedData xmlSecEncNs /\
    Some (Node 5) <> None.
Proof.
  pose proof (X12_decrypt_arguments build_default lib_ok argv_decrypt)
    as (_ & _ & _ & _ & Hdec).
  cbv zeta in Hdec.
  apply (Hdec (EncCtx 6) (Some (Node 5))
              (xmlSecEncCtxDecrypt lib_ok (EncCtx 6) (Some (Node 5)))).
  prove_In.
Defined.



(** X14.  Cleanup is last and in reverse order.  [sign_file] ends, on every
    path, by releasing what it acquired, latest first (the signature
    context, then the document), and releases nothing before that;
    [decrypt_file] ends by freeing the document it parsed and releases
    nothing before that (the encryption context is not released).  Over a
    whole run, the sign program releases exactly what it acquired, in
    reverse order; so does the decrypt program, encryption context apart. *)
Theorem X14_cleanup_last_in_reverse :
  forall (b : build) (L : library) (argv : list string)
         (mngr : xmlSecKeysMngrPtr) (xml_file key_file cert_file : string),
  let s := snd (Sign3.sign_file L xml_file key_file cert_file) in
  let d := snd (Decrypt3.decrypt_file L mngr xml_file) in
  let kept (r : resource) := negb (is_encryption_context r) in
  (exists body,
     s = body ++ map release_call (rev (pick acquires s)) /\
     pick releases body = []) /\
  (exists body,
     d = body ++ map release_call (filter kept (rev (pick acquires d))) /\
     pick releases body = []) /\
  pick releases (snd (Sign3.main b L argv))
    = rev (pick acquires (snd (Sign3.main b L argv))) /\
  pick releases (snd (Decrypt3.main b L argv))
    = filter kept (rev (pick acquires (snd (Decrypt3.main b L argv)))).
Proof.
  intros b L argv mngr xml_file key_file cert_file s d kept; subst s d kept.
  split; [ | split; [ | split ] ].
  - paths_of (Sign3.sign_file L xml_file key_file cert_file);
      match goal with
      | |- exists body, ?T = body ++ ?TD /\ _ =>
          exists (firstn (List.length T - List.length TD) T)
      end; split; reflexivity.
  - paths_of (Decrypt3.decrypt_file L mngr xml_file);
      match goal with
      | |- exists body, ?T = body ++ ?TD /\ _ =>
          exists (firstn (List.length T - List.length TD) T)
      end; split; reflexivity.
  - paths_of (Sign3.main b L argv); reflexivity.
  - paths_of (Decrypt3.main b L argv); reflexivity.
Qed.
